(** * Authentication subsystem of the Express/Prisma backend

    A shallow embedding of the decision logic in
    - [src/middleware/auth.js]   (token issuer and the auth gate),
    - [src/config/passport.js]   (local, Google and GitHub strategies),
    - [src/controllers/authController.js] (register, login, profile),
    - the OAuth callback routes,
    over an explicit model of the user table reached through the ORM. *)

From stdpp Require Import base option list strings gmap pretty.
From Stdlib Require Import Ascii ZArith Lia.

Open Scope Z_scope.

(** ** Results of fallible calls *)

Inductive Result (E A : Type) : Type :=
| Ok (a : A)
| Err (e : E).
Arguments Ok {E A} a.
Arguments Err {E A} e.

(** ** The fragment of JavaScript the handlers rely on *)

Module Js.

(** Truthiness of a possibly undefined string: [undefined] and the empty
    string are falsy, every other string is truthy. *)
Definition truthy (v : option string) : bool :=
  match v with
  | Some (String _ _) => true
  | _ => false
  end.

(** [a || b] where [b] is a string. *)
Definition or_str (a : option string) (b : string) : string :=
  match a with
  | Some (String c s) => String c s
  | _ => b
  end.

(** [a || b] where [b] may itself be undefined. *)
Definition or_opt (a b : option string) : option string :=
  if truthy a then a else b.

(** [s.split(sep)] for a one-character separator: always at least one
    segment, [''.split(' ')] is [['']]. *)
Fixpoint split (sep : ascii) (s : string) : list string :=
  match s with
  | EmptyString => [EmptyString]
  | String c rest =>
      if Ascii.eqb c sep then EmptyString :: split sep rest
      else match split sep rest with
           | seg :: segs => String c seg :: segs
           | [] => [String c EmptyString]
           end
  end.

(** [parts.join(sep)]. *)
Fixpoint join (sep : string) (parts : list string) : string :=
  match parts with
  | [] => EmptyString
  | [p] => p
  | p :: ps => p +:+ sep +:+ join sep ps
  end.

(** [xs.slice(1)]. *)
Definition slice1 {A} (xs : list A) : list A := tail xs.

(** White space among the ASCII characters, as [\s] has it: space, tab,
    line feed, vertical tab, form feed and carriage return. *)
Definition is_space (c : ascii) : bool :=
  let n := nat_of_ascii c in
  (Nat.eqb n 32 || (Nat.leb 9 n && Nat.leb n 13))%bool.

(** [s.replace(/\s+/g, '_')] on a string of ASCII characters: every
    maximal run of white space becomes one underscore. *)
Fixpoint replace_spaces_go (in_run : bool) (s : string) : string :=
  match s with
  | EmptyString => EmptyString
  | String c rest =>
      if is_space c
      then if in_run then replace_spaces_go true rest
           else String "_"%char (replace_spaces_go true rest)
      else String c (replace_spaces_go false rest)
  end.
Definition replace_spaces (s : string) : string := replace_spaces_go false s.

(** [s.toLowerCase()] on a string of ASCII characters. *)
Definition lower_char (c : ascii) : ascii :=
  let n := nat_of_ascii c in
  if (Nat.leb 65 n && Nat.leb n 90)%bool then ascii_of_nat (n + 32) else c.
Fixpoint toLowerCase (s : string) : string :=
  match s with
  | EmptyString => EmptyString
  | String c rest => String (lower_char c) (toLowerCase rest)
  end.

(** A template literal hole [${v}]: an undefined value prints as the
    word [undefined]. *)
Definition interpolate (v : option string) : string :=
  match v with
  | Some s => s
  | None => "undefined"
  end.

(** [String(n)] for a non-negative integer such as [Date.now()]. *)
Definition of_number (n : Z) : string := pretty n.

(** [s.includes(c)] for one character. *)
Fixpoint includes (c : ascii) (s : string) : bool :=
  match s with
  | EmptyString => false
  | String x rest => if Ascii.eqb x c then true else includes c rest
  end.



End Js.

(** The two string methods whose Unicode tables are not reproduced here:
    [s.toLowerCase()] and [s.replace(/\s+/g, '_')]. They are taken as
    given; [Js.toLowerCase] and [Js.replace_spaces] say what they do on
    ASCII text. *)
Class JsText : Type := {
  text_toLowerCase : string -> string;
  text_replace_spaces : string -> string
}.

(** ** The user table behind [prisma.user] *)

Module Store.

Inductive Provider : Type := local | google | github.

#[global] Instance Provider_eq_dec : EqDecision Provider.
Proof. solve_decision. Defined.

(** One row of the user table, with every scalar column. *)
Record User : Type := mkUser {
  id : string;
  username : string;
  firstName : string;
  lastName : string;
  email : string;
  age : Z;
  password : option string;
  provider : Provider;
  providerId : option string;
  refreshToken : option string;
  createdAt : Z;
  updatedAt : Z
}.

Inductive PrismaError : Type :=
| UniqueConstraintFailed (column : string)
| RecordNotFound
| ValidationError.

(** Errors a strategy or handler can end with: a failed store call, a
    [TypeError] raised while reading the profile, an exception of the
    signing library, a session that could not be established. *)
Inductive Failure : Type :=
| StoreFailure (e : PrismaError)
| TypeError (what : string)
| SignFailure
| SessionFailure.

(** [findFirst({ where })] without [orderBy]: the store answers with the
    first row it meets that satisfies the filter. The order of the list
    stands for the order in which the store happens to read its rows; no
    ordering is asked for, so a property that is to hold of the code has
    to hold for every order of the rows. *)
Definition findFirst (where_ : User -> bool) (rows : list User) : option User :=
  List.find where_ rows.

Definition by_id (i : string) (u : User) : bool := bool_decide (id u = i).
Definition by_email (e : string) (u : User) : bool := bool_decide (email u = e).
Definition by_username (n : string) (u : User) : bool := bool_decide (username u = n).
Definition by_provider (p : Provider) (x : string) (u : User) : bool :=
  (bool_decide (provider u = p) && bool_decide (providerId u = Some x))%bool.

(** [where: { OR: [...] }]; an empty list of filters matches no row. *)
Definition where_or (fs : list (User -> bool)) (u : User) : bool :=
  existsb (fun f => f u) fs.

(** [findUnique({ where: { id } })] and [findUnique({ where: { email } })]. *)
Definition findUnique_id (i : string) (rows : list User) : option User :=
  List.find (by_id i) rows.
Definition findUnique_email (e : string) (rows : list User) : option User :=
  List.find (by_email e) rows.

(** The [data] object of [create]. *)
Record CreateData : Type := mkCreate {
  c_username : string;
  c_firstName : string;
  c_lastName : string;
  c_email : string;
  c_age : Z;
  c_password : option string;
  c_provider : Provider;
  c_providerId : option string;
  c_refreshToken : option string
}.

(** The [data] object of [update]: a key that is absent or [undefined]
    leaves its column unchanged. *)
Record UpdateData : Type := mkUpdate {
  d_username : option string;
  d_firstName : option string;
  d_lastName : option string;
  d_email : option string;
  d_age : option Z;
  d_password : option string;
  d_provider : option Provider;
  d_providerId : option string;
  d_refreshToken : option string
}.

Definition row_of (newId : string) (now : Z) (d : CreateData) : User :=
  {| id := newId;
     username := c_username d;
     firstName := c_firstName d;
     lastName := c_lastName d;
     email := c_email d;
     age := c_age d;
     password := c_password d;
     provider := c_provider d;
     providerId := c_providerId d;
     refreshToken := c_refreshToken d;
     createdAt := now;
     updatedAt := now |}.

(** A row other than the skipped ones holds the pair (provider,
    providerId); a row without providerId holds no pair. *)
Definition pair_held (skip : User -> bool) (p : Provider) (x : option string)
           (rows : list User) : bool :=
  match x with
  | Some e => existsb (fun r => (negb (skip r) && by_provider p e r)%bool) rows
  | None => false
  end.

(** Modelled from the spec: the schema file is not part of src/. The
    spec's data model makes id, email and username unique, and the pair
    (provider, providerId) unique when providerId is set, and has
    [create] fail on a uniqueness violation; [newId] and [now] are the
    identifier and the time stamp the store assigns to the new row. *)
Definition create (newId : string) (now : Z) (d : CreateData) (rows : list User)
  : Result PrismaError (User * list User) :=
  if existsb (by_id newId) rows then Err (UniqueConstraintFailed "id")
  else if existsb (by_email (c_email d)) rows then Err (UniqueConstraintFailed "email")
  else if existsb (by_username (c_username d)) rows
       then Err (UniqueConstraintFailed "username")
  else if pair_held (fun _ => false) (c_provider d) (c_providerId d) rows
       then Err (UniqueConstraintFailed "provider_providerId")
  else let u := row_of newId now d in Ok (u, rows ++ [u]).

Definition or_keep {A} (new : option A) (old : A) : A :=
  match new with
  | Some v => v
  | None => old
  end.

Definition or_keep_opt {A} (new : option A) (old : option A) : option A :=
  match new with
  | Some v => Some v
  | None => old
  end.

(** The row after an update at time [now]: the columns named in [data]
    change, and the store stamps [updatedAt]. *)
Definition apply_update (now : Z) (d : UpdateData) (u : User) : User :=
  {| id := id u;
     username := or_keep (d_username d) (username u);
     firstName := or_keep (d_firstName d) (firstName u);
     lastName := or_keep (d_lastName d) (lastName u);
     email := or_keep (d_email d) (email u);
     age := or_keep (d_age d) (age u);
     password := or_keep_opt (d_password d) (password u);
     provider := or_keep (d_provider d) (provider u);
     providerId := or_keep_opt (d_providerId d) (providerId u);
     refreshToken := or_keep_opt (d_refreshToken d) (refreshToken u);
     createdAt := createdAt u;
     updatedAt := now |}.

(** Another row already holds the value a unique column is being set to. *)
Definition taken_by_other (i : string) (col : User -> string) (v : option string)
           (rows : list User) : bool :=
  match v with
  | Some x => existsb (fun r => (negb (by_id i r) && bool_decide (col r = x))%bool) rows
  | None => false
  end.

(** The [data] names the provider or the providerId. *)
Definition sets_pair (d : UpdateData) : bool :=
  match d_provider d, d_providerId d with
  | None, None => false
  | _, _ => true
  end.

(** Modelled from the spec: the schema file is not part of src/.
    [update({ where: { id }, data })] fails when no row has the id, and,
    email, username and the pair (provider, providerId) being unique in
    the spec's data model, when the data sets one of them to a value
    another row holds. The row is rewritten where it stands in the list;
    see [findFirst] for what the order of the list means. *)
Definition update (i : string) (now : Z) (d : UpdateData) (rows : list User)
  : Result PrismaError (User * list User) :=
  match findUnique_id i rows with
  | None => Err RecordNotFound
  | Some u =>
      if taken_by_other i email (d_email d) rows
      then Err (UniqueConstraintFailed "email")
      else if taken_by_other i username (d_username d) rows
      then Err (UniqueConstraintFailed "username")
      else if (sets_pair d
               && pair_held (by_id i) (provider (apply_update now d u))
                            (providerId (apply_update now d u)) rows)%bool
      then Err (UniqueConstraintFailed "provider_providerId")
      else Ok (apply_update now d u,
               (fun r => if by_id i r then apply_update now d r else r) <$> rows)
  end.

(** The store invariant of the spec's data model. *)
Definition wf (rows : list User) : Prop :=
  NoDup (id <$> rows) /\ NoDup (email <$> rows) /\ NoDup (username <$> rows).

(** Modelled from the spec: the schema file is not part of src/.
    [delete({ where: { id } })] removes the row with that id and fails
    when there is none; the other rows keep their order. *)
Definition deleteUser (i : string) (rows : list User) : Result PrismaError (User * list User) :=
  match findUnique_id i rows with
  | None => Err RecordNotFound
  | Some u => Ok (u, List.filter (fun r => negb (by_id i r)) rows)
  end.

End Store.

(** ** User objects as they travel through handlers and responses *)

Module View.
Import Store.

Inductive JsVal : Type :=
| JUndefined
| JNull
| JStr (s : string)
| JNum (n : Z).

#[global] Instance JsVal_eq_dec : EqDecision JsVal.
Proof. solve_decision. Defined.

Definition nullable (o : option string) : JsVal :=
  match o with
  | Some s => JStr s
  | None => JNull
  end.

Definition provider_name (p : Provider) : string :=
  match p with
  | local => "local"
  | google => "google"
  | github => "github"
  end.

(** A row as the ORM hands it over when no [select] is given: one key
    per column, [null] for an empty nullable column. *)
Definition full (u : User) : gmap string JsVal :=
  list_to_map
    [ ("id", JStr (id u)); ("username", JStr (username u));
      ("firstName", JStr (firstName u)); ("lastName", JStr (lastName u));
      ("email", JStr (email u)); ("age", JNum (age u));
      ("password", nullable (password u));
      ("provider", JStr (provider_name (provider u)));
      ("providerId", nullable (providerId u));
      ("refreshToken", nullable (refreshToken u));
      ("createdAt", JNum (createdAt u)); ("updatedAt", JNum (updatedAt u)) ].

(** The [select] used by register, getProfile, updateProfile, the gate
    and deserializeUser: nine keys, all set to [true]. *)
Definition selected (u : User) : gmap string JsVal :=
  list_to_map
    [ ("id", JStr (id u)); ("username", JStr (username u));
      ("firstName", JStr (firstName u)); ("lastName", JStr (lastName u));
      ("email", JStr (email u)); ("age", JNum (age u));
      ("provider", JStr (provider_name (provider u)));
      ("createdAt", JNum (createdAt u)); ("updatedAt", JNum (updatedAt u)) ].

(** [const { password, ...userWithoutPassword } = user]. *)
Definition withoutPassword (o : gmap string JsVal) : gmap string JsVal :=
  delete "password" o.

(** Property read [o.k]: a missing key reads as [undefined]. *)
Definition get (o : gmap string JsVal) (k : string) : JsVal :=
  default JUndefined (o !! k).

(** [findUnique({ where: { id: v } })] for a value read off an object:
    anything but a string is refused by the ORM before it reaches the
    table. *)
Definition findUnique_where_id (v : JsVal) (rows : list User)
  : Result PrismaError (option User) :=
  match v with
  | JStr i => Ok (findUnique_id i rows)
  | _ => Err ValidationError
  end.

End View.

(** ** Token issuer: [generateToken] and [verifyToken] *)

Module Token.
Import View.

(** The two environment variables read by the issuer. *)
Record Env : Type := mkEnv {
  JWT_SECRET : option string;
  JWT_EXPIRES_IN : option string
}.

(** Payload of a token: the signed object plus the two time stamps,
    in seconds. *)
Record Claims : Type := mkClaims {
  userId : JsVal;
  iat : Z;
  exp : Z
}.

Record Jwt : Type := mkJwt {
  claims : Claims;
  signature : string
}.

(** What the signing library is left abstract in: the keyed signature,
    and the wire format with its encoding and decoding. *)
Class JwtLib : Type := {
  hmac : string -> Claims -> string;
  encode : Jwt -> string;
  decode : string -> option Jwt
}.

(** The contract of the wire format: what has been encoded decodes to
    itself, and an encoded token is one non-empty run of characters
    without a space, fit for a header. *)
Definition Lawful `{JwtLib} : Prop :=
  (forall t, decode (encode t) = Some t)
  /\ (forall t, Js.includes " " (encode t) = false)
  /\ (forall t, encode t <> EmptyString).

(** The two error names the gate tells apart. *)
Inductive VerifyError : Type :=
| JsonWebTokenError
| TokenExpiredError.

Definition digit_of (c : ascii) : option Z :=
  let n := nat_of_ascii c in
  if (Nat.leb 48 n && Nat.leb n 57)%bool then Some (Z.of_nat (n - 48)) else None.

Fixpoint number_go (acc : Z) (s : string) : Z * string :=
  match s with
  | EmptyString => (acc, EmptyString)
  | String c rest =>
      match digit_of c with
      | Some d => number_go (acc * 10 + d) rest
      | None => (acc, s)
      end
  end.

Definition unit_ms (u : string) : option Z :=
  if bool_decide (u = "") then Some 1
  else if bool_decide (u = "ms") then Some 1
  else if bool_decide (u = "s") then Some 1000
  else if bool_decide (u = "m") then Some 60000
  else if bool_decide (u = "h") then Some 3600000
  else if bool_decide (u = "d") then Some 86400000
  else if bool_decide (u = "w") then Some 604800000
  else None.

(** Modelled from the spec: the signing library is not part of src/. The
    spec gives the issuer a configurable expiry window with a default of
    seven days; the window is written as a count followed by a unit
    ([7d], [12h], [30m], [45s]), in milliseconds when the unit is left
    out. Other spellings are outside the model and read as a failure. *)
Definition ms (s : string) : option Z :=
  match s with
  | EmptyString => None
  | String c _ =>
      match digit_of c with
      | None => None
      | Some _ => let '(n, u) := number_go 0 s in (fun k => n * k) <$> unit_ms u
      end
  end.

(** [process.env.JWT_EXPIRES_IN || '7d']. *)
Definition expiresIn (env : Env) : string := Js.or_str (JWT_EXPIRES_IN env) "7d".

(** Modelled from the spec: the signing library is not part of src/.
    [sign] stamps the payload with the issue time and the expiry
    [iat + window] and signs it; it throws without a secret or with a
    window it cannot read. [clock] is the current time in seconds. *)
Definition sign `{JwtLib} (payload : JsVal) (secret : option string)
           (window : string) (clock : Z) : option Jwt :=
  match secret with
  | Some (String c k) =>
      match ms window with
      | Some w =>
          let cl := mkClaims payload clock (clock + w / 1000) in
          Some (mkJwt cl (hmac (String c k) cl))
      | None => None
      end
  | _ => None
  end.

(** Modelled from the spec: the signing library is not part of src/.
    Validation of a decoded token: [Malformed] ([JsonWebTokenError])
    when the signature does not verify, [Expired] ([TokenExpiredError])
    when the current time exceeds the encoded expiry, the payload
    otherwise. *)
Definition verify_decoded `{JwtLib} (t : Jwt) (secret : option string) (clock : Z)
  : Result VerifyError Claims :=
  match secret with
  | Some (String c k) =>
      if bool_decide (signature t = hmac (String c k) (claims t))
      then if bool_decide (exp (claims t) < clock)
           then Err TokenExpiredError
           else Ok (claims t)
      else Err JsonWebTokenError
  | _ => Err JsonWebTokenError
  end.

(** Modelled from the spec: the signing library is not part of src/.
    A string whose structure is invalid is [Malformed]. *)
Definition verify `{JwtLib} (token : string) (secret : option string) (clock : Z)
  : Result VerifyError Claims :=
  match decode token with
  | Some t => verify_decoded t secret clock
  | None => Err JsonWebTokenError
  end.

(** [generateToken(userId)]; [None] when [jwt.sign] throws. *)
Definition generateToken `{JwtLib} (env : Env) (clock : Z) (userId : JsVal) : option Jwt :=
  sign userId (JWT_SECRET env) (expiresIn env) clock.

(** [verifyToken(token)]. *)
Definition verifyToken `{JwtLib} (env : Env) (clock : Z) (token : string)
  : Result VerifyError Claims :=
  verify token (JWT_SECRET env) clock.

End Token.

(** ** Password hasher *)

(** The hashing library, left abstract: [bcrypt.hash(password, rounds)]
    (the salt it draws is part of the function) and
    [bcrypt.compare(password, digest)]. *)
Class Bcrypt : Type := {
  bcrypt_hash : string -> nat -> string;
  bcrypt_compare : string -> string -> bool
}.

(** ** Identity resolver: the three passport strategies *)

Module Passport.
Import Store View.

(** The three ways a verify callback calls [done]. *)
Inductive Done : Type :=
| DoneError (e : Failure)
| DoneFail (message : string)
| DoneUser (user : gmap string JsVal).

(** Local strategy: [async (email, password, done) => ...]. *)
Definition localStrategy `{Bcrypt} (email password : string) (rows : list User) : Done :=
  match findUnique_email email rows with
  | None => DoneFail "Invalid email or password"
  | Some user =>
      match Store.password user with
      | Some (String c h) =>
          if bcrypt_compare password (String c h)
          then DoneUser (withoutPassword (full user))
          else DoneFail "Invalid email or password"
      | _ => DoneFail "Please use OAuth to login"
      end
  end.

(** [profile.name] of a Google profile. *)
Record GoogleName : Type := mkName {
  givenName : option string;
  familyName : option string
}.

(** What the code reads of a Google profile: [profile.id], the values of
    [profile.emails] (none when the array is missing or empty) and
    [profile.name], which may be missing. *)
Record GoogleProfile : Type := mkGoogle {
  g_id : string;
  g_emails : list string;
  g_name : option GoogleName
}.

(** What the code reads of a GitHub profile. *)
Record GitHubProfile : Type := mkGitHub {
  h_id : string;
  h_username : option string;
  h_displayName : option string;
  h_emails : list string
}.

(** The [data] of both strategies' [update]. *)
Definition link_data (p : Provider) (externalId : string) (refreshToken : option string)
  : UpdateData :=
  {| d_username := None; d_firstName := None; d_lastName := None;
     d_email := None; d_age := None; d_password := None;
     d_provider := Some p;
     d_providerId := Some externalId;
     d_refreshToken := refreshToken |}.

(** The tail shared by both strategies: strip the password and call
    [done], or hand the store's error to [done]. *)
Definition finish (r : Result PrismaError (User * list User)) (rows : list User)
  : Done * list User :=
  match r with
  | Ok (user, rows') => (DoneUser (withoutPassword (full user)), rows')
  | Err e => (DoneError (StoreFailure e), rows)
  end.

(** Google strategy: [async (accessToken, refreshToken, profile, done)]. *)
Definition googleStrategy (refreshToken : option string) (profile : GoogleProfile)
           (newId : string) (now : Z) (rows : list User) : Done * list User :=
  match g_emails profile with
  | [] => (DoneError (TypeError "profile.emails[0]"), rows)
  | mail :: _ =>
      match findFirst (where_or [by_email mail; by_provider google (g_id profile)]) rows with
      | Some user =>
          finish (update (id user) now (link_data google (g_id profile) refreshToken) rows)
                 rows
      | None =>
          match g_name profile with
          | None => (DoneError (TypeError "profile.name.givenName"), rows)
          | Some name =>
              finish
                (create newId now
                   {| c_username :=
                        default EmptyString (Js.split "@" mail !! 0%nat)
                          +:+ "_" +:+ Js.of_number now;
                      c_firstName := Js.or_str (givenName name) "Unknown";
                      c_lastName := Js.or_str (familyName name) "User";
                      c_email := mail;
                      c_age := 18;
                      c_password := None;
                      c_provider := google;
                      c_providerId := Some (g_id profile);
                      c_refreshToken := refreshToken |}
                   rows)
                rows
          end
      end
  end.

(** [profile.emails?.[0]?.value]. *)
Definition first_email (emails : list string) : option string := head emails.

(** The filter of the GitHub lookup. A filter object whose only value is
    [undefined] constrains nothing and the ORM leaves it out of the [OR]. *)
Definition github_where (profile : GitHubProfile) : User -> bool :=
  match first_email (h_emails profile) with
  | Some mail => where_or [by_email mail; by_provider github (h_id profile)]
  | None => where_or [by_provider github (h_id profile)]
  end.

Definition github_username `{JsText} (profile : GitHubProfile) (now : Z) : string :=
  Js.or_str
    (Js.or_opt (h_username profile)
               ((fun d => text_toLowerCase (text_replace_spaces d)) <$> h_displayName profile))
    ("github_user_" +:+ Js.of_number now).

Definition github_firstName (profile : GitHubProfile) : string :=
  Js.or_str
    (Js.or_opt ((fun d => default EmptyString (Js.split " " d !! 0%nat))
                  <$> h_displayName profile)
               (h_username profile))
    "Unknown".

Definition github_lastName (profile : GitHubProfile) : string :=
  Js.or_str
    ((fun d => Js.join " " (Js.slice1 (Js.split " " d))) <$> h_displayName profile)
    "User".

Definition github_email (profile : GitHubProfile) : string :=
  Js.or_str (first_email (h_emails profile))
            (Js.interpolate (h_username profile) +:+ "@github.local").

(** GitHub strategy: [async (accessToken, refreshToken, profile, done)]. *)
Definition githubStrategy `{JsText} (refreshToken : option string) (profile : GitHubProfile)
           (newId : string) (now : Z) (rows : list User) : Done * list User :=
  match findFirst (github_where profile) rows with
  | Some user =>
      finish (update (id user) now (link_data github (h_id profile) refreshToken) rows)
             rows
  | None =>
      finish
        (create newId now
           {| c_username := github_username profile now;
              c_firstName := github_firstName profile;
              c_lastName := github_lastName profile;
              c_email := github_email profile;
              c_age := 18;
              c_password := None;
              c_provider := github;
              c_providerId := Some (h_id profile);
              c_refreshToken := refreshToken |}
           rows)
        rows
  end.

(** One interface over the two OAuth strategies, selected by the
    provider of the profile. *)
Inductive OAuthProfile : Type :=
| Google (p : GoogleProfile)
| GitHub (p : GitHubProfile).

Definition profile_provider (p : OAuthProfile) : Provider :=
  match p with
  | Google _ => google
  | GitHub _ => github
  end.

Definition profile_id (p : OAuthProfile) : string :=
  match p with
  | Google g => g_id g
  | GitHub h => h_id h
  end.

Definition profile_email (p : OAuthProfile) : option string :=
  match p with
  | Google g => head (g_emails g)
  | GitHub h => first_email (h_emails h)
  end.

Definition resolveOAuth `{JsText} (refreshToken : option string) (profile : OAuthProfile)
           (newId : string) (now : Z) (rows : list User) : Done * list User :=
  match profile with
  | Google g => googleStrategy refreshToken g newId now rows
  | GitHub h => githubStrategy refreshToken h newId now rows
  end.

(** [passport.serializeUser((user, done) => done(null, user.id))]. *)
Definition serializeUser (user : gmap string JsVal) : JsVal := get user "id".

(** [passport.deserializeUser(async (id, done) => ...)]: the selected
    columns of the row, [null] when the row is gone, the error when the
    lookup throws. *)
Definition deserializeUser (i : JsVal) (rows : list User)
  : Result Failure (option (gmap string JsVal)) :=
  match findUnique_where_id i rows with
  | Ok found => Ok (selected <$> found)
  | Err e => Err (StoreFailure e)
  end.

End Passport.

(** ** Responses *)

Module Http.
Import View Token.

(** A JSON response: the status and the keys the handlers write. *)
Record Response : Type := mkResponse {
  status : Z;
  error : option string;
  message : string;
  user : option (gmap string JsVal);
  token : option Jwt
}.

(** [res.status(code).json({ error, message })]. *)
Definition failure (code : Z) (err msg : string) : Response :=
  mkResponse code (Some err) msg None None.

(** [res.redirect(location)], as [failureRedirect] does. *)
Definition redirect (location : string) : Response :=
  mkResponse 302 None location None None.

End Http.

(** ** Controllers: register, login, getProfile, updateProfile *)

Module AuthController.
Import Store View Token Passport Http.

Record RegisterBody : Type := mkRegister {
  r_username : string;
  r_firstName : string;
  r_lastName : string;
  r_email : string;
  r_age : Z;
  r_password : string
}.

(** [register(req, res)]: the response and the table afterwards. *)
Definition register `{Bcrypt} `{JwtLib} (env : Env) (body : RegisterBody)
           (newId : string) (now : Z) (rows : list User) : Response * list User :=
  match findFirst (where_or [by_email (r_email body); by_username (r_username body)]) rows with
  | Some existingUser =>
      (failure 400 "User Already Exists"
         (if bool_decide (email existingUser = r_email body)
          then "User with this email already exists"
          else "Username is already taken"),
       rows)
  | None =>
      let saltRounds := 12%nat in
      let hashedPassword := bcrypt_hash (r_password body) saltRounds in
      match create newId now
              {| c_username := r_username body;
                 c_firstName := r_firstName body;
                 c_lastName := r_lastName body;
                 c_email := r_email body;
                 c_age := r_age body;
                 c_password := Some hashedPassword;
                 c_provider := local;
                 c_providerId := None;
                 c_refreshToken := None |} rows with
      | Err _ => (failure 500 "Internal Server Error" "Failed to register user", rows)
      | Ok (created, rows') =>
          let user := selected created in
          match generateToken env (now / 1000) (get user "id") with
          | None => (failure 500 "Internal Server Error" "Failed to register user", rows')
          | Some token =>
              (mkResponse 201 None "User registered successfully" (Some user) (Some token),
               rows')
          end
      end
  end.

(** What [passport.authenticate('local', callback)] hands to the callback:
    the framework fails with its own message when a credential is empty,
    and runs the strategy otherwise. *)
Definition authenticate_local `{Bcrypt} (email password : string) (rows : list User) : Done :=
  if (Js.truthy (Some email) && Js.truthy (Some password))%bool
  then localStrategy email password rows
  else DoneFail "Missing credentials".

(** [login(req, res, next)]: the custom callback around the local
    strategy. [logIn_ok] tells whether [req.logIn] could establish the
    session; an exception raised while signing escapes the handler. *)
Definition login `{Bcrypt} `{JwtLib} (env : Env) (email password : string)
           (logIn_ok : bool) (now : Z) (rows : list User) : Result Failure Response :=
  match authenticate_local email password rows with
  | DoneError _ => Ok (failure 500 "Internal Server Error" "Login failed")
  | DoneFail info =>
      Ok (failure 401 "Authentication Failed" (Js.or_str (Some info) "Invalid credentials"))
  | DoneUser user =>
      if logIn_ok
      then match generateToken env (now / 1000) (get user "id") with
           | Some token => Ok (mkResponse 200 None "Login successful" (Some user) (Some token))
           | None => Err SignFailure
           end
      else Ok (failure 500 "Internal Server Error" "Failed to create session")
  end.

(** [getProfile(req, res)], from [req.user]. *)
Definition getProfile (req_user : gmap string JsVal) (rows : list User) : Response :=
  match findUnique_where_id (get req_user "id") rows with
  | Err _ => failure 500 "Internal Server Error" "Failed to retrieve profile"
  | Ok None => failure 404 "User Not Found" "User profile not found"
  | Ok (Some found) =>
      mkResponse 200 None "Profile retrieved successfully" (Some (selected found)) None
  end.

(** The body of updateProfile: every key may be left out. *)
Record UpdateBody : Type := mkUpdateBody {
  u_username : option string;
  u_firstName : option string;
  u_lastName : option string;
  u_email : option string;
  u_age : option Z
}.

(** [{ id: { not: userId } }]. *)
Definition id_not (userId : JsVal) (u : User) : bool :=
  match userId with
  | JStr i => negb (by_id i u)
  | _ => true
  end.

(** [[username ? { username } : {}, email ? { email } : {}]] with the
    empty objects filtered out. *)
Definition taken_filters (body : UpdateBody) : list (User -> bool) :=
  (if Js.truthy (u_username body)
   then [by_username (default EmptyString (u_username body))] else [])
  ++ (if Js.truthy (u_email body)
      then [by_email (default EmptyString (u_email body))] else []).

(** [updateProfile(req, res)], from [req.user] and the body. *)
Definition updateProfile (req_user : gmap string JsVal) (body : UpdateBody)
           (now : Z) (rows : list User) : Response * list User :=
  let userId := get req_user "id" in
  let existingUser :=
    if (Js.truthy (u_username body) || Js.truthy (u_email body))%bool
    then findFirst (fun u => (id_not userId u && where_or (taken_filters body) u)%bool) rows
    else None in
  match existingUser with
  | Some existing =>
      (failure 400 "Conflict"
         (if bool_decide (Some (username existing) = u_username body)
          then "Username is already taken"
          else "Email is already in use"),
       rows)
  | None =>
      let updateData :=
        {| d_username := u_username body;
           d_firstName := u_firstName body;
           d_lastName := u_lastName body;
           d_email := u_email body;
           d_age := u_age body;
           d_password := None;
           d_provider := None;
           d_providerId := None;
           d_refreshToken := None |} in
      match userId with
      | JStr i =>
          match update i now updateData rows with
          | Ok (updated, rows') =>
              (mkResponse 200 None "Profile updated successfully" (Some (selected updated)) None,
               rows')
          | Err _ => (failure 500 "Internal Server Error" "Failed to update profile", rows)
          end
      | _ => (failure 500 "Internal Server Error" "Failed to update profile", rows)
      end
  end.

(** [changePassword(req, res)], from [req.user] and the two passwords of
    the body. *)
Definition changePassword `{Bcrypt} (req_user : gmap string JsVal)
           (currentPassword newPassword : string) (now : Z) (rows : list User)
  : Response * list User :=
  match get req_user "id" with
  | JStr userId =>
      match findUnique_id userId rows with
      | Some found =>
          match password found with
          | Some (String c h) =>
              if bcrypt_compare currentPassword (String c h)
              then
                let saltRounds := 12%nat in
                let hashedNewPassword := bcrypt_hash newPassword saltRounds in
                match update userId now
                        {| d_username := None; d_firstName := None; d_lastName := None;
                           d_email := None; d_age := None;
                           d_password := Some hashedNewPassword;
                           d_provider := None; d_providerId := None;
                           d_refreshToken := None |} rows with
                | Ok (_, rows') =>
                    (mkResponse 200 None "Password changed successfully" None None, rows')
                | Err _ =>
                    (failure 500 "Internal Server Error" "Failed to change password", rows)
                end
              else (failure 400 "Authentication Failed" "Current password is incorrect", rows)
          | _ => (failure 400 "Bad Request" "Cannot change password for OAuth users", rows)
          end
      | None => (failure 400 "Bad Request" "Cannot change password for OAuth users", rows)
      end
  | _ => (failure 500 "Internal Server Error" "Failed to change password", rows)
  end.

(** The calls a handler makes on the session of the request. *)
Inductive SessionCall : Type :=
| ReqLogout
| SessionDestroy
| ClearCookie (name : string).

(** [deleteAccount(req, res)]: the response, the table afterwards and the
    session calls made. Errors of the two session calls are only logged. *)
Definition deleteAccount (req_user : gmap string JsVal) (rows : list User)
  : Response * list User * list SessionCall :=
  match get req_user "id" with
  | JStr userId =>
      match deleteUser userId rows with
      | Ok (_, rows') =>
          (mkResponse 200 None "Account deleted successfully" None None, rows',
           [ReqLogout; SessionDestroy; ClearCookie "connect.sid"])
      | Err _ => (failure 500 "Internal Server Error" "Failed to delete account", rows, [])
      end
  | _ => (failure 500 "Internal Server Error" "Failed to delete account", rows, [])
  end.

End AuthController.

(** ** The OAuth callback routes *)

Module AuthRoutes.
Import Store View Token Passport Http.

Definition provider_title (p : OAuthProfile) : string :=
  match p with
  | Google _ => "Google"
  | GitHub _ => "GitHub"
  end.

(** [router.get('/<provider>/callback', passport.authenticate(...), handler)]:
    the strategy resolves the identity, the session is established,
    and the handler answers with [req.user] and a fresh token. An error
    given to [done], or raised by the handler, goes to the framework. *)
Definition oauthCallback `{JsText} `{JwtLib} (env : Env) (refreshToken : option string)
           (profile : OAuthProfile) (logIn_ok : bool) (newId : string) (now : Z)
           (rows : list User) : Result Failure Response * list User :=
  match resolveOAuth refreshToken profile newId now rows with
  | (DoneError e, rows') => (Err e, rows')
  | (DoneFail _, rows') => (Ok (redirect "/login"), rows')
  | (DoneUser req_user, rows') =>
      if logIn_ok
      then match generateToken env (now / 1000) (get req_user "id") with
           | Some token =>
               (Ok (mkResponse 200 None (provider_title profile +:+ " OAuth login successful")
                      (Some req_user) (Some token)),
                rows')
           | None => (Err SignFailure, rows')
           end
      else (Err SessionFailure, rows')
  end.

End AuthRoutes.

(** ** Auth gate: the middleware of [src/middleware/auth.js] *)

Module Auth.
Import Store View Token Http.

(** What the gate reads of a request: the Authorization header, the
    answer of [req.isAuthenticated()], and [req.user]. *)
Record Request : Type := mkRequest {
  authorization : option string;
  isAuthenticated : bool;
  req_user : option (gmap string JsVal)
}.

(** A middleware either calls [next()] with the request as it left it,
    or answers itself. *)
Inductive Outcome : Type :=
| Next (req : Request)
| Reply (res : Response).

Definition attach (req : Request) (u : gmap string JsVal) : Request :=
  {| authorization := authorization req;
     isAuthenticated := isAuthenticated req;
     req_user := Some u |}.

(** [authHeader && authHeader.split(' ')[1]]. *)
Definition bearer (authHeader : option string) : option string :=
  match authHeader with
  | Some (String c s) => Js.split " " (String c s) !! 1%nat
  | falsy => falsy
  end.

Definition authenticateJWT `{JwtLib} (env : Env) (now : Z) (rows : list User)
           (req : Request) : Outcome :=
  match bearer (authorization req) with
  | Some (String c t) =>
      match verifyToken env (now / 1000) (String c t) with
      | Ok decoded =>
          match findUnique_where_id (userId decoded) rows with
          | Ok (Some found) => Next (attach req (selected found))
          | Ok None => Reply (failure 401 "Unauthorized" "User not found")
          | Err _ => Reply (failure 500 "Internal Server Error" "Authentication failed")
          end
      | Err JsonWebTokenError => Reply (failure 401 "Unauthorized" "Invalid token")
      | Err TokenExpiredError => Reply (failure 401 "Unauthorized" "Token expired")
      end
  | _ => Reply (failure 401 "Unauthorized" "Access token is required")
  end.

Definition authenticateSession (req : Request) : Outcome :=
  if isAuthenticated req then Next req
  else Reply (failure 401 "Unauthorized" "Please log in to access this resource").

Definition authenticate `{JwtLib} (env : Env) (now : Z) (rows : list User)
           (req : Request) : Outcome :=
  if Js.truthy (bearer (authorization req))
  then authenticateJWT env now rows req
  else authenticateSession req.

Definition optionalAuth `{JwtLib} (env : Env) (now : Z) (rows : list User)
           (req : Request) : Outcome :=
  match bearer (authorization req) with
  | Some (String c t) =>
      match verifyToken env (now / 1000) (String c t) with
      | Ok decoded =>
          match findUnique_where_id (userId decoded) rows with
          | Ok (Some found) => Next (attach req (selected found))
          | Ok None => Next req
          | Err _ => Next req
          end
      | Err _ => Next req
      end
  | _ => Next req
  end.

End Auth.

(** ** Sample data: stand-ins for the libraries and a small table *)

Module Sample.
Import Store View Token Passport Http AuthController Auth.

(** A transparent stand-in for the hashing library. *)
Definition plain_bcrypt : Bcrypt :=
  {| bcrypt_hash := fun p _ => "$2a$12$" +:+ p;
     bcrypt_compare := fun p h => bool_decide (h = "$2a$12$" +:+ p) |}.

Definition alice_claims : Claims := mkClaims (JStr "id-alice") 1000 605800.

(** A wire format for the stand-in of the signing library: four fields
    separated by dots, strings written in hexadecimal and numbers in
    binary, so that no field holds a dot or a space. *)
Definition hex_digit (n : nat) : ascii :=
  List.nth n ["0"; "1"; "2"; "3"; "4"; "5"; "6"; "7"; "8"; "9";
              "a"; "b"; "c"; "d"; "e"; "f"]%char "0"%char.

Definition hex_char (c : ascii) : string :=
  let n := nat_of_ascii c in
  String (hex_digit (n / 16)) (String (hex_digit (n mod 16)) EmptyString).

Fixpoint hex (s : string) : string :=
  match s with
  | EmptyString => EmptyString
  | String c rest => hex_char c +:+ hex rest
  end.

Definition hex_value (c : ascii) : option nat :=
  let n := nat_of_ascii c in
  if (Nat.leb 48 n && Nat.leb n 57)%bool then Some (n - 48)%nat
  else if (Nat.leb 97 n && Nat.leb n 102)%bool then Some (n - 87)%nat
  else None.

Fixpoint unhex (s : string) : option string :=
  match s with
  | EmptyString => Some EmptyString
  | String _ EmptyString => None
  | String a (String b rest) =>
      match hex_value a, hex_value b, unhex rest with
      | Some x, Some y, Some r => Some (String (ascii_of_nat (16 * x + y)) r)
      | _, _, _ => None
      end
  end.

Fixpoint bits (p : positive) : string :=
  match p with
  | xH => EmptyString
  | xO q => String "0" (bits q)
  | xI q => String "1" (bits q)
  end.

Fixpoint unbits (s : string) : option positive :=
  match s with
  | EmptyString => Some xH
  | String c rest =>
      if Ascii.eqb c "0" then xO <$> unbits rest
      else if Ascii.eqb c "1" then xI <$> unbits rest
      else None
  end.

Definition num (z : Z) : string :=
  match z with
  | Z0 => "z"
  | Zpos p => String "p" (bits p)
  | Zneg p => String "m" (bits p)
  end.

Definition unnum (s : string) : option Z :=
  match s with
  | EmptyString => None
  | String c rest =>
      if Ascii.eqb c "z" then (if bool_decide (rest = EmptyString) then Some 0 else None)
      else if Ascii.eqb c "p" then Zpos <$> unbits rest
      else if Ascii.eqb c "m" then Zneg <$> unbits rest
      else None
  end.

Definition val (v : JsVal) : string :=
  match v with
  | JUndefined => "u"
  | JNull => "n"
  | JStr s => String "s" (hex s)
  | JNum n => String "i" (num n)
  end.

Definition unval (s : string) : option JsVal :=
  match s with
  | EmptyString => None
  | String c rest =>
      if Ascii.eqb c "u" then (if bool_decide (rest = EmptyString) then Some JUndefined else None)
      else if Ascii.eqb c "n" then (if bool_decide (rest = EmptyString) then Some JNull else None)
      else if Ascii.eqb c "s" then JStr <$> unhex rest
      else if Ascii.eqb c "i" then JNum <$> unnum rest
      else None
  end.

Definition wire (t : Jwt) : string :=
  val (userId (claims t)) +:+ "." +:+ num (iat (claims t)) +:+ "."
    +:+ num (exp (claims t)) +:+ "." +:+ hex (signature t).

Definition unwire (s : string) : option Jwt :=
  match Js.split "." s with
  | [a; b; c; d] =>
      match unval a, unnum b, unnum c, unhex d with
      | Some v, Some i, Some e, Some g => Some (mkJwt (mkClaims v i e) g)
      | _, _, _, _ => None
      end
  | _ => None
  end.

(** A transparent stand-in for the signing library: the signature is
    the key, the wire format is the one above. *)
Definition plain_jwt : JwtLib :=
  {| hmac := fun k _ => k;
     encode := wire;
     decode := unwire |}.

(** Three tokens on the wire: alice's, one for an id no record has, and
    alice's claims under a signature made without the secret. *)
Definition alice_wire : string := wire (mkJwt alice_claims "s3cret").
Definition forged_wire : string := wire (mkJwt alice_claims "guess").

(** A stand-in for the two string methods, right on ASCII text. *)
Definition plain_text : JsText :=
  {| text_toLowerCase := Js.toLowerCase;
     text_replace_spaces := Js.replace_spaces |}.

Definition env : Env := mkEnv (Some "s3cret") None.

Definition alice : User :=
  mkUser "id-alice" "alice" "Alice" "Liddell" "a@x.com" 30
         (Some "$2a$12$wonderland") local None None 100 100.

Definition bob : User :=
  mkUser "id-bob" "bob" "Bob" "Builder" "b@x.com" 41
         (Some "$2a$12$canwefixit") local None None 200 200.

(** An account created by a Google login: no password. *)
Definition carol : User :=
  mkUser "id-carol" "carol_150" "Carol" "User" "c@x.com" 18
         None google (Some "g-77") (Some "rt-0") 300 300.

Definition table : list User := [alice; bob; carol].

(** The same accounts with the Google-linked one first. *)
Definition table_linked_first : list User := [carol; alice; bob].

(** A registration with bob's email and alice's username. *)
Definition crossed : RegisterBody :=
  mkRegister "alice" "Eve" "Moneypenny" "b@x.com" 33 "Secur3!@#".

(** A Google login of carol's Google account that now reports bob's
    email address. *)
Definition carol_as_bob : GoogleProfile :=
  mkGoogle "g-77" ["b@x.com"] (Some (mkName (Some "Carol") None)).

(** A Google profile that reports alice's email under a new Google id. *)
Definition alice_on_google : GoogleProfile :=
  mkGoogle "g-500" ["a@x.com"] (Some (mkName None None)).

(** A Google profile of somebody new, with no name parts. *)
Definition dave : GoogleProfile :=
  mkGoogle "g-1" ["dave@x.com"] (Some (mkName None None)).

(** The same, as it comes when the provider sends no name at all. *)
Definition dave_nameless : GoogleProfile := mkGoogle "g-1" ["dave@x.com"] None.

(** A GitHub profile without email or display name, whose login name
    is already the username of a local account. *)
Definition octo_bob : GitHubProfile := mkGitHub "h-5" (Some "bob") None [].

(** A GitHub profile with nothing but its id and login name. *)
Definition octo_new : GitHubProfile := mkGitHub "h-6" (Some "octo") None [].

Definition with_header (h : option string) : Request := mkRequest h false None.

End Sample.

(** ** Vocabulary of the statements *)

Module Says.
Import Store View Token Passport Http Auth.

(** The string contains a space. *)
Fixpoint has_space (s : string) : bool :=
  match s with
  | EmptyString => false
  | String c rest => if Ascii.eqb c " " then true else has_space rest
  end.



(** The user object of a response, when it has one, has no password key. *)
Definition password_free (res : Response) : Prop :=
  match user res with
  | Some o => o !! "password" = None
  | None => True
  end.

(** The user object handed to [done], when there is one. *)
Definition done_user (d : Done) : option (gmap string JsVal) :=
  match d with
  | DoneUser o => Some o
  | _ => None
  end.

(** The shape both OAuth strategies share: link the record the lookup
    finds, or create one. *)
Definition link_or_create (where_ : User -> bool) (p : Provider) (x : string)
           (rt : option string) (data : Result Failure CreateData) (newId : string)
           (now : Z) (rows : list User) : Done * list User :=
  match findFirst where_ rows with
  | Some found => finish (update (id found) now (link_data p x rt) rows) rows
  | None =>
      match data with
      | Ok d => finish (create newId now d rows) rows
      | Err e => (DoneError e, rows)
      end
  end.

(** The filter of the lookup a strategy makes for a profile; a Google
    profile without email never reaches the lookup. *)
Definition oauth_where (profile : OAuthProfile) : User -> bool :=
  match profile with
  | Google g =>
      match g_emails g with
      | mail :: _ => where_or [by_email mail; by_provider google (g_id g)]
      | [] => fun _ => false
      end
  | GitHub h => github_where h
  end.

(** [profile.emails[0].value.split('@')[0]]. *)
Definition local_part (mail : string) : string :=
  default EmptyString (Js.split "@" mail !! 0%nat).

(** The record carries the pair (provider, external id). *)
Definition carries (p : Provider) (x : string) (u : User) : Prop :=
  provider u = p /\ providerId u = Some x.



End Says.

(** * Properties *)

Import Store View Token Passport Http AuthController AuthRoutes Auth Says.

(** ** Lists and lookups *)

Section Lookup.
Context {A : Type}.
Implicit Types (p : A -> bool) (l : list A).

Lemma find_none_iff p l : List.find p l = None <-> (forall x, x ∈ l -> p x = false).
Proof.
  induction l as [|a l IH]; simpl.
  - split; [intros _ x Hx; inversion Hx | done].
  - destruct (p a) eqn:Ha.
    + split; [done | intros H; specialize (H a (list_elem_of_here _ _)); congruence].
    + rewrite IH. split.
      * intros H x Hx. apply elem_of_cons in Hx as [-> | Hx]; auto.
      * intros H x Hx. apply H. by apply list_elem_of_further.
Qed.

Lemma find_first p pre r post :
  (forall x, x ∈ pre -> p x = false) -> p r = true ->
  List.find p (pre ++ r :: post) = Some r.
Proof.
  induction pre as [|a pre IH]; simpl; intros Hpre Hr.
  - by rewrite Hr.
  - rewrite (Hpre a (list_elem_of_here _ _)). apply IH; [|done].
    intros x Hx. apply Hpre. by apply list_elem_of_further.
Qed.

Lemma find_some_split p l r :
  List.find p l = Some r ->
  exists pre post, l = pre ++ r :: post /\ p r = true /\ (forall x, x ∈ pre -> p x = false).
Proof.
  induction l as [|a l IH]; simpl; [done|].
  destruct (p a) eqn:Ha.
  - intros [= ->]. exists [], l. split; [done|]. split; [done|].
    intros x Hx. inversion Hx.
  - intros Hf. destruct (IH Hf) as (pre & post & -> & Hr & Hpre).
    exists (a :: pre), post. split; [done|]. split; [done|].
    intros x Hx. apply elem_of_cons in Hx as [-> | Hx]; auto.
Qed.

Lemma existsb_false_iff p l : existsb p l = false <-> (forall x, x ∈ l -> p x = false).
Proof.
  induction l as [|a l IH]; simpl.
  - split; [intros _ x Hx; inversion Hx | done].
  - rewrite orb_false_iff, IH. split.
    + intros [Ha H] x Hx. apply elem_of_cons in Hx as [-> | Hx]; auto.
    + intros H. split; [apply H, list_elem_of_here|].
      intros x Hx. by apply H, list_elem_of_further.
Qed.

End Lookup.

Lemma by_email_true e u : by_email e u = true <-> email u = e.
Proof. unfold by_email. by rewrite bool_decide_eq_true. Qed.

Lemma by_email_false e u : by_email e u = false <-> email u <> e.
Proof. unfold by_email. by rewrite bool_decide_eq_false. Qed.

Lemma by_username_true n u : by_username n u = true <-> username u = n.
Proof. unfold by_username. by rewrite bool_decide_eq_true. Qed.

Lemma by_username_false n u : by_username n u = false <-> username u <> n.
Proof. unfold by_username. by rewrite bool_decide_eq_false. Qed.

Lemma by_id_true i u : by_id i u = true <-> id u = i.
Proof. unfold by_id. by rewrite bool_decide_eq_true. Qed.

Lemma by_provider_true p x u :
  by_provider p x u = true <-> provider u = p /\ providerId u = Some x.
Proof. unfold by_provider. by rewrite andb_true_iff, !bool_decide_eq_true. Qed.

Lemma by_provider_false p x u :
  by_provider p x u = false <-> ~ (provider u = p /\ providerId u = Some x).
Proof. rewrite <- by_provider_true. by destruct (by_provider p x u). Qed.

(** ** Registration *)

(** C1, as the claim has it, fails: the table holds alice and then bob, and
    the request carries bob's email with alice's username. The lookup
    meets alice first, her email differs, and the answer is the username
    message although the email is a duplicate. *)
Lemma register_duplicate_email_username_message :
  (exists r, r ∈ Sample.table /\ email r = r_email Sample.crossed)
  /\ @register Sample.plain_bcrypt Sample.plain_jwt Sample.env Sample.crossed
       "id-new" 5000 Sample.table
     = (failure 400 "User Already Exists" "Username is already taken", Sample.table).
Proof.
  split.
  - exists Sample.bob. split; [|reflexivity].
    unfold Sample.table. apply list_elem_of_further, list_elem_of_here.
  - reflexivity.
Qed.

(** C1, amended: the first record, in table order, that collides on email
    or on username decides the answer. It is the AlreadyExists failure,
    with the email message when that record's email is the supplied one
    (whether or not a username collides as well), with the username
    message when only its username collides; the table is left as it
    was, so no record is created. *)
Theorem register_collision `{Bcrypt} `{JwtLib} (env : Env) (body : RegisterBody)
        (newId : string) (now : Z) (rows pre post : list User) (r : User) :
  rows = pre ++ r :: post ->
  (forall x, x ∈ pre -> email x <> r_email body /\ username x <> r_username body) ->
  email r = r_email body \/ username r = r_username body ->
  register env body newId now rows
  = (failure 400 "User Already Exists"
       (if bool_decide (email r = r_email body)
        then "User with this email already exists"
        else "Username is already taken"),
     rows).
Proof.
  intros -> Hpre Hr. unfold register, findFirst.
  rewrite (find_first _ pre r post); [done| |].
  - intros x Hx. destruct (Hpre x Hx) as [He Hn]. unfold where_or. simpl.
    apply by_email_false in He. apply by_username_false in Hn. by rewrite He, Hn.
  - unfold where_or. simpl. destruct Hr as [Hr | Hr].
    + apply by_email_true in Hr. by rewrite Hr.
    + apply by_username_true in Hr. rewrite Hr. by rewrite !orb_true_r.
Qed.

Lemma register_collision_witness :
  @register Sample.plain_bcrypt Sample.plain_jwt Sample.env
    (mkRegister "zed" "Z" "Z" "b@x.com" 20 "pw") "id-new" 5000 Sample.table
  = (failure 400 "User Already Exists" "User with this email already exists", Sample.table).
Proof.
  apply (@register_collision Sample.plain_bcrypt Sample.plain_jwt Sample.env
           (mkRegister "zed" "Z" "Z" "b@x.com" 20 "pw") "id-new" 5000
           Sample.table [Sample.alice] [Sample.carol] Sample.bob).
  - reflexivity.
  - intros x Hx. apply list_elem_of_singleton in Hx as ->. split; discriminate.
  - left. reflexivity.
Defined.

(** ** Local login *)

Lemma findUnique_email_none e rows :
  findUnique_email e rows = None <-> (forall r, r ∈ rows -> email r <> e).
Proof.
  unfold findUnique_email. rewrite find_none_iff.
  split; intros Hall r Hr; apply by_email_false, Hall, Hr.
Qed.

Lemma password_stripped (u : User) : withoutPassword (full u) !! "password" = None.
Proof. unfold withoutPassword. apply lookup_delete_eq. Qed.



(** ** The auth gate *)

Lemma split_spaceless (s : string) : has_space s = false -> Js.split " " s = [s].
Proof.
  induction s as [|c s IH]; simpl; [done|].
  destruct (Ascii.eqb c " "); [done|]. intros Hs. by rewrite (IH Hs).
Qed.

Lemma split_at_first_space (a b : string) :
  has_space a = false -> Js.split " " (a +:+ " " +:+ b) = a :: Js.split " " b.
Proof.
  induction a as [|c a IH]; simpl; [done|].
  destruct (Ascii.eqb c " "); [done|]. intros Hs.
  change (a ++ String " " b)%string with (a +:+ " " +:+ b). by rewrite (IH Hs).
Qed.

Lemma bearer_second_segment (scheme value : string) :
  has_space scheme = false -> has_space value = false ->
  bearer (Some (scheme +:+ " " +:+ value)) = Some value.
Proof.
  intros Hs Hv. unfold bearer.
  assert (Js.split " " (scheme +:+ " " +:+ value) !! 1%nat = Some value) as Hsplit.
  { by rewrite (split_at_first_space _ _ Hs), (split_spaceless _ Hv). }
  destruct scheme; exact Hsplit.
Qed.

Lemma bearer_spaceless (h : string) : has_space h = false -> Js.truthy (bearer (Some h)) = false.
Proof.
  intros Hs. unfold bearer. destruct h as [|c h]; [done|].
  by rewrite (split_spaceless _ Hs).
Qed.

Lemma findUnique_id_none i rows :
  findUnique_id i rows = None <-> (forall r, r ∈ rows -> id r <> i).
Proof.
  unfold findUnique_id. rewrite find_none_iff.
  split; intros Hall r Hr.
  - specialize (Hall r Hr). unfold by_id in Hall. by apply bool_decide_eq_false in Hall.
  - unfold by_id. apply bool_decide_eq_false, Hall, Hr.
Qed.


Lemma has_space_includes (s : string) : has_space s = Js.includes " " s.
Proof. induction s as [|c s IH]; simpl; [done|]. by rewrite IH. Qed.





(** C10: the gate never looks at the scheme. Whatever stands before the
    first space, the segment after it is verified as a token and the
    token path is taken, with the answers of that path; a header without
    a space yields no token and the request is left to the session. *)
Theorem bearer_scheme_unchecked `{JwtLib} (env : Env) (now : Z) (rows : list User)
        (req : Request) :
  (forall scheme value,
     authorization req = Some (scheme +:+ " " +:+ value) ->
     has_space scheme = false -> has_space value = false -> value <> "" ->
     bearer (authorization req) = Some value
     /\ authenticate env now rows req = authenticateJWT env now rows req
     /\ authenticate env now rows req
        = match verifyToken env (now / 1000) value with
          | Ok decoded =>
              match findUnique_where_id (userId decoded) rows with
              | Ok (Some found) => Next (attach req (selected found))
              | Ok None => Reply (failure 401 "Unauthorized" "User not found")
              | Err _ => Reply (failure 500 "Internal Server Error" "Authentication failed")
              end
          | Err JsonWebTokenError => Reply (failure 401 "Unauthorized" "Invalid token")
          | Err TokenExpiredError => Reply (failure 401 "Unauthorized" "Token expired")
          end)
  /\ (forall h, authorization req = Some h -> has_space h = false ->
      Js.truthy (bearer (authorization req)) = false
      /\ authenticate env now rows req = authenticateSession req).
Proof.
  split.
  - intros scheme value Hh Hs Hv Hne.
    assert (bearer (authorization req) = Some value) as Hb.
    { rewrite Hh. by apply bearer_second_segment. }
    split; [exact Hb|].
    assert (authenticate env now rows req = authenticateJWT env now rows req) as Hjwt.
    { unfold authenticate. rewrite Hb. by destruct value. }
    split; [exact Hjwt|]. rewrite Hjwt. unfold authenticateJWT. rewrite Hb.
    by destruct value.
  - intros h Hh Hs. rewrite Hh.
    pose proof (bearer_spaceless h Hs) as Hb. split; [exact Hb|].
    unfold authenticate. rewrite Hh. by rewrite Hb.
Qed.

Lemma bearer_scheme_unchecked_witness :
  bearer (Some ("Basic " +:+ Sample.alice_wire)) = Some Sample.alice_wire
  /\ @authenticate Sample.plain_jwt Sample.env 2000000 Sample.table
       (Sample.with_header (Some ("Basic " +:+ Sample.alice_wire)))
     = Next (attach (Sample.with_header (Some ("Basic " +:+ Sample.alice_wire))) (selected Sample.alice))
  /\ @authenticate Sample.plain_jwt Sample.env 2000000 Sample.table
       (Sample.with_header (Some "Basic xyz"))
     = Reply (failure 401 "Unauthorized" "Invalid token")
  /\ @authenticate Sample.plain_jwt Sample.env 2000000 Sample.table
       (Sample.with_header (Some Sample.alice_wire))
     = Reply (failure 401 "Unauthorized" "Please log in to access this resource").
Proof.
  pose proof (proj1 (@bearer_scheme_unchecked Sample.plain_jwt Sample.env 2000000
                       Sample.table (Sample.with_header (Some ("Basic " +:+ Sample.alice_wire))))
                "Basic" Sample.alice_wire eq_refl eq_refl eq_refl ltac:(discriminate))
    as (Hb & _ & Hgood).
  pose proof (proj1 (@bearer_scheme_unchecked Sample.plain_jwt Sample.env 2000000
                       Sample.table (Sample.with_header (Some "Basic xyz")))
                "Basic" "xyz" eq_refl eq_refl eq_refl ltac:(discriminate))
    as (_ & _ & Hbad).
  pose proof (proj2 (@bearer_scheme_unchecked Sample.plain_jwt Sample.env 2000000
                       Sample.table (Sample.with_header (Some Sample.alice_wire)))
                Sample.alice_wire eq_refl eq_refl)
    as (_ & Hsession).
  split; [exact Hb|]. split; [exact Hgood|]. split; [exact Hbad|]. exact Hsession.
Defined.

(** ** The token issuer *)

Lemma includes_app (c : ascii) (a b : string) :
  Js.includes c (a +:+ b) = (Js.includes c a || Js.includes c b)%bool.
Proof.
  induction a as [|x a IH]; [done|].
  change (String x a +:+ b) with (String x (a +:+ b)). simpl.
  by destruct (Ascii.eqb x c).
Qed.

Lemma split_without (c : ascii) (s : string) :
  Js.includes c s = false -> Js.split c s = [s].
Proof.
  induction s as [|x s IH]; simpl; [done|].
  destruct (Ascii.eqb x c); [done|]. intros Hs. by rewrite (IH Hs).
Qed.

Lemma split_at_first (c : ascii) (a b : string) :
  Js.includes c a = false -> Js.split c (a +:+ String c b) = a :: Js.split c b.
Proof.
  induction a as [|x a IH]; simpl.
  - by rewrite Ascii.eqb_refl.
  - destruct (Ascii.eqb x c); [done|]. intros Hs.
    change (a ++ String c b)%string with (a +:+ String c b). by rewrite (IH Hs).
Qed.

(** *** The sample wire format meets the contract *)

Lemma unhex_hex_char (c : ascii) (r : string) :
  Sample.unhex (Sample.hex_char c +:+ r) = String c <$> Sample.unhex r.
Proof. destruct c as [[] [] [] [] [] [] [] []]; reflexivity. Qed.

Lemma unhex_hex (s : string) : Sample.unhex (Sample.hex s) = Some s.
Proof.
  induction s as [|c s IH]; [done|].
  change (Sample.hex (String c s)) with (Sample.hex_char c +:+ Sample.hex s).
  by rewrite unhex_hex_char, IH.
Qed.

Lemma hex_char_plain (c : ascii) (r : string) :
  Js.includes "." (Sample.hex_char c +:+ r) = Js.includes "." r
  /\ Js.includes " " (Sample.hex_char c +:+ r) = Js.includes " " r.
Proof. destruct c as [[] [] [] [] [] [] [] []]; split; reflexivity. Qed.

Lemma hex_plain (s : string) :
  Js.includes "." (Sample.hex s) = false /\ Js.includes " " (Sample.hex s) = false.
Proof.
  induction s as [|c s [IH1 IH2]]; [done|].
  change (Sample.hex (String c s)) with (Sample.hex_char c +:+ Sample.hex s).
  destruct (hex_char_plain c (Sample.hex s)) as [-> ->]. done.
Qed.

Lemma unbits_bits (p : positive) : Sample.unbits (Sample.bits p) = Some p.
Proof. induction p as [p IH|p IH|]; simpl; by rewrite ?IH. Qed.

Lemma bits_plain (p : positive) :
  Js.includes "." (Sample.bits p) = false /\ Js.includes " " (Sample.bits p) = false.
Proof. induction p as [p [? ?]|p [? ?]|]; simpl; done. Qed.

Lemma unnum_num (z : Z) : Sample.unnum (Sample.num z) = Some z.
Proof. destruct z as [|p|p]; simpl; by rewrite ?unbits_bits. Qed.

Lemma num_plain (z : Z) :
  Js.includes "." (Sample.num z) = false /\ Js.includes " " (Sample.num z) = false.
Proof. destruct z as [|p|p]; simpl; try done; apply bits_plain. Qed.

Lemma unval_val (v : JsVal) : Sample.unval (Sample.val v) = Some v.
Proof. destruct v as [| |s|n]; simpl; by rewrite ?unhex_hex, ?unnum_num. Qed.

Lemma val_plain (v : JsVal) :
  Js.includes "." (Sample.val v) = false /\ Js.includes " " (Sample.val v) = false.
Proof. destruct v as [| |s|n]; simpl; try done; [apply hex_plain | apply num_plain]. Qed.

Lemma wire_fields (v : JsVal) (i e : Z) (g : string) :
  Sample.wire (mkJwt (mkClaims v i e) g)
  = Sample.val v
      +:+ String "." (Sample.num i +:+ String "." (Sample.num e +:+ String "." (Sample.hex g))).
Proof. reflexivity. Qed.

Lemma plain_jwt_lawful : @Lawful Sample.plain_jwt.
Proof.
  split; [|split]; intros [[v i e] g];
    change (@encode Sample.plain_jwt) with Sample.wire;
    change (@decode Sample.plain_jwt) with Sample.unwire; rewrite wire_fields.
  - unfold Sample.unwire.
    rewrite (split_at_first "." _ _ (proj1 (val_plain v))).
    rewrite (split_at_first "." _ _ (proj1 (num_plain i))).
    rewrite (split_at_first "." _ _ (proj1 (num_plain e))).
    rewrite (split_without "." _ (proj1 (hex_plain g))).
    by rewrite unval_val, !unnum_num, unhex_hex.
  - rewrite includes_app. cbn [Js.includes Ascii.eqb]. rewrite includes_app.
    cbn [Js.includes Ascii.eqb]. rewrite includes_app. cbn [Js.includes Ascii.eqb].
    rewrite (proj2 (val_plain v)), (proj2 (num_plain i)), (proj2 (num_plain e)).
    by rewrite (proj2 (hex_plain g)).
  - by destruct v.
Qed.

(** *** Round trip *)

(** C4: with a signing secret, [generateToken] issues a token for the
    user id that expires one window after the issue time, the window
    being the configured [JWT_EXPIRES_IN] when there is one and seven days
    when it is unset or empty. Under the contract of the wire format, the
    encoded token validates to the same user id at every time before the
    expiry and is refused as expired at every time after it. A string
    that does not decode, or whose signature does not verify, is refused
    as malformed. *)
Theorem token_round_trip `{JwtLib} (env : Env) (clock : Z) (uid : JsVal)
        (c : ascii) (k : string) (w : Z) :
  Lawful ->
  JWT_SECRET env = Some (String c k) ->
  (exists a s, JWT_EXPIRES_IN env = Some (String a s) /\ ms (String a s) = Some w)
  \/ (Js.truthy (JWT_EXPIRES_IN env) = false /\ w = 7 * 24 * 60 * 60 * 1000) ->
  exists t,
    generateToken env clock uid = Some t
    /\ userId (claims t) = uid
    /\ iat (claims t) = clock
    /\ exp (claims t) = clock + w / 1000
    /\ (forall later, later < clock + w / 1000 ->
        exists d, verifyToken env later (encode t) = Ok d /\ userId d = uid)
    /\ (forall later, clock + w / 1000 < later ->
        verifyToken env later (encode t) = Err TokenExpiredError)
    /\ (forall s later, decode s = None -> verifyToken env later s = Err JsonWebTokenError)
    /\ (forall s j later, decode s = Some j ->
        signature j <> hmac (String c k) (claims j) ->
        verifyToken env later s = Err JsonWebTokenError).
Proof.
  intros (Hdec & _ & _) Hsecret Hwindow.
  assert (ms (expiresIn env) = Some w) as Hw.
  { unfold expiresIn. destruct Hwindow as [(a & s & -> & Hms) | [Hunset ->]]; [done|].
    by destruct (JWT_EXPIRES_IN env) as [[|a s]|]. }
  set (cl := mkClaims uid clock (clock + w / 1000)).
  exists (mkJwt cl (hmac (String c k) cl)).
  split. { unfold generateToken, sign. by rewrite Hsecret, Hw. }
  split; [done|]. split; [done|]. split; [done|]. split.
  { intros later Hlt. exists cl. split; [|done].
    unfold verifyToken, verify, verify_decoded. rewrite Hdec, Hsecret. simpl.
    rewrite bool_decide_eq_true_2 by done.
    rewrite bool_decide_eq_false_2 by lia. done. }
  split.
  { intros later Hlt.
    unfold verifyToken, verify, verify_decoded. rewrite Hdec, Hsecret. simpl.
    rewrite bool_decide_eq_true_2 by done.
    by rewrite bool_decide_eq_true_2 by lia. }
  split.
  { intros s later Hs. unfold verifyToken, verify. by rewrite Hs. }
  intros s j later Hs Hsig.
  unfold verifyToken, verify, verify_decoded. rewrite Hs, Hsecret.
  by rewrite bool_decide_eq_false_2.
Qed.

Lemma token_round_trip_witness :
  (exists t,
     @generateToken Sample.plain_jwt Sample.env 1000 (JStr "id-alice") = Some t
     /\ exp (claims t) = 1000 + 7 * 24 * 60 * 60
     /\ (exists d, @verifyToken Sample.plain_jwt Sample.env 605799
                     (@encode Sample.plain_jwt t) = Ok d
                   /\ userId d = JStr "id-alice")
     /\ @verifyToken Sample.plain_jwt Sample.env 605801 (@encode Sample.plain_jwt t)
        = Err TokenExpiredError)
  /\ (exists t,
        @generateToken Sample.plain_jwt (mkEnv (Some "s3cret") (Some "1h")) 1000
          (JStr "id-alice") = Some t
        /\ exp (claims t) = 1000 + 60 * 60
        /\ @verifyToken Sample.plain_jwt (mkEnv (Some "s3cret") (Some "1h")) 4601
             (@encode Sample.plain_jwt t)
           = Err TokenExpiredError)
  /\ @verifyToken Sample.plain_jwt Sample.env 2000 "not a token" = Err JsonWebTokenError
  /\ @verifyToken Sample.plain_jwt Sample.env 2000 Sample.forged_wire = Err JsonWebTokenError.
Proof.
  destruct (@token_round_trip Sample.plain_jwt Sample.env 1000 (JStr "id-alice")
              "s"%char "3cret" (7 * 24 * 60 * 60 * 1000) plain_jwt_lawful eq_refl
              (or_intror (conj eq_refl eq_refl)))
    as (t & Hgen & _ & _ & Hexp & Hvalid & Hexpired & Hgarbled & Hforged).
  destruct (@token_round_trip Sample.plain_jwt (mkEnv (Some "s3cret") (Some "1h")) 1000
              (JStr "id-alice") "s"%char "3cret" 3600000 plain_jwt_lawful eq_refl
              (or_introl (ex_intro _ "1"%char (ex_intro _ "h" (conj eq_refl eq_refl)))))
    as (t' & Hgen' & _ & _ & Hexp' & _ & Hexpired' & _).
  split; [|split; [|split]].
  - exists t. split; [exact Hgen|]. split; [exact Hexp|]. split.
    + apply Hvalid. reflexivity.
    + apply Hexpired. reflexivity.
  - exists t'. split; [exact Hgen'|]. split; [exact Hexp'|].
    apply Hexpired'. reflexivity.
  - apply Hgarbled. reflexivity.
  - apply (Hforged Sample.forged_wire (mkJwt Sample.alice_claims "guess")); [reflexivity|].
    discriminate.
Defined.
(** ** User views *)

Lemma selected_no_password (u : User) : selected u !! "password" = None.
Proof. unfold selected. reflexivity. Qed.

Lemma selected_id (u : User) : get (selected u) "id" = JStr (id u).
Proof. unfold get, selected. reflexivity. Qed.

Lemma withoutPassword_id (u : User) : get (withoutPassword (full u)) "id" = JStr (id u).
Proof. unfold get, withoutPassword, full. reflexivity. Qed.

Lemma finish_password_free r rows o :
  done_user (finish r rows).1 = Some o -> o !! "password" = None.
Proof.
  destruct r as [[u rows']|e]; simpl; [|done].
  intros [= <-]. apply password_stripped.
Qed.

Lemma resolveOAuth_password_free `{JsText} rt profile newId now rows o :
  done_user (resolveOAuth rt profile newId now rows).1 = Some o -> o !! "password" = None.
Proof.
  destruct profile as [g|h]; simpl.
  - unfold googleStrategy. destruct (g_emails g) as [|mail ?]; [done|].
    destruct (findFirst _ rows); [apply finish_password_free|].
    destruct (g_name g); [apply finish_password_free | done].
  - unfold githubStrategy.
    destruct (findFirst _ rows); apply finish_password_free.
Qed.

(** C9: no user object that leaves through register, login, the OAuth
    callbacks, getProfile or updateProfile has a password key. *)
Theorem password_never_returned `{JsText} `{Bcrypt} `{JwtLib} (env : Env) (now : Z)
        (rows : list User) (newId : string) (logIn_ok : bool)
        (reg : RegisterBody) (mail pw : string)
        (refreshToken : option string) (profile : OAuthProfile)
        (req_user : gmap string JsVal) (upd : UpdateBody) :
  password_free (register env reg newId now rows).1
  /\ match login env mail pw logIn_ok now rows with
     | Ok res => password_free res
     | Err _ => True
     end
  /\ match (oauthCallback env refreshToken profile logIn_ok newId now rows).1 with
     | Ok res => password_free res
     | Err _ => True
     end
  /\ password_free (getProfile req_user rows)
  /\ password_free (updateProfile req_user upd now rows).1.
Proof.
  split; [|split; [|split; [|split]]].
  - unfold register.
    destruct (findFirst _ rows); [done|].
    destruct (create _ _ _ rows) as [[u rows']|e]; [|done].
    destruct (generateToken _ _ _); [|done].
    unfold password_free. simpl. apply selected_no_password.
  - unfold login, authenticate_local, localStrategy.
    destruct (Js.truthy (Some mail) && Js.truthy (Some pw))%bool; [|done].
    destruct (findUnique_email mail rows) as [u|]; [|done].
    destruct (password u) as [[|c h]|]; try done.
    destruct (bcrypt_compare pw (String c h)); [|done].
    destruct logIn_ok; [|done].
    destruct (generateToken _ _ _); [|done].
    unfold password_free. simpl. apply password_stripped.
  - unfold oauthCallback.
    pose proof (resolveOAuth_password_free refreshToken profile newId now rows) as Hfree.
    destruct (resolveOAuth refreshToken profile newId now rows) as [[e|m|o] rows']; try done.
    destruct logIn_ok; [|done].
    destruct (generateToken _ _ _); [|done].
    unfold password_free. simpl. by apply Hfree.
  - unfold getProfile.
    destruct (findUnique_where_id _ rows) as [[u|]|e]; try done;
      unfold password_free; simpl; apply selected_no_password.
  - unfold updateProfile.
    destruct (if (_ || _)%bool then _ else _); [done|].
    destruct (get req_user "id"); try done.
    destruct (update _ _ _ rows) as [[u rows']|e]; [|done].
    unfold password_free. simpl. apply selected_no_password.
Qed.

(** The views are not empty: a successful registration answers with the
    nine selected columns and a token. *)
Example register_success :
  exists t,
    @register Sample.plain_bcrypt Sample.plain_jwt Sample.env
      (mkRegister "jdoe" "John" "Doe" "j@x.com" 25 "Secur3!@#") "id-jdoe" 7000 []
    = (mkResponse 201 None "User registered successfully"
         (Some (selected (mkUser "id-jdoe" "jdoe" "John" "Doe" "j@x.com" 25
                            (Some "$2a$12$Secur3!@#") local None None 7000 7000)))
         (Some t),
       [mkUser "id-jdoe" "jdoe" "John" "Doe" "j@x.com" 25
               (Some "$2a$12$Secur3!@#") local None None 7000 7000]).
Proof. eexists. reflexivity. Qed.

Example login_success :
  exists t,
    @login Sample.plain_bcrypt Sample.plain_jwt Sample.env "a@x.com" "wonderland" true 7000
      Sample.table
    = Ok (mkResponse 200 None "Login successful"
            (Some (withoutPassword (full Sample.alice))) (Some t)).
Proof. eexists. reflexivity. Qed.

(** ** OAuth resolution *)

Lemma googleStrategy_shape `{JsText} rt g mail rest newId now rows :
  g_emails g = mail :: rest ->
  googleStrategy rt g newId now rows
  = link_or_create (where_or [by_email mail; by_provider google (g_id g)]) google (g_id g) rt
      match g_name g with
      | Some name =>
          Ok {| c_username := local_part mail +:+ "_" +:+ Js.of_number now;
                c_firstName := Js.or_str (givenName name) "Unknown";
                c_lastName := Js.or_str (familyName name) "User";
                c_email := mail;
                c_age := 18;
                c_password := None;
                c_provider := google;
                c_providerId := Some (g_id g);
                c_refreshToken := rt |}
      | None => Err (TypeError "profile.name.givenName")
      end newId now rows.
Proof.
  intros Hm. unfold googleStrategy, link_or_create. rewrite Hm.
  destruct (findFirst _ rows); [done|]. by destruct (g_name g).
Qed.

Lemma githubStrategy_shape `{JsText} rt h newId now rows :
  githubStrategy rt h newId now rows
  = link_or_create (github_where h) github (h_id h) rt
      (Ok {| c_username := github_username h now;
             c_firstName := github_firstName h;
             c_lastName := github_lastName h;
             c_email := github_email h;
             c_age := 18;
             c_password := None;
             c_provider := github;
             c_providerId := Some (h_id h);
             c_refreshToken := rt |}) newId now rows.
Proof. reflexivity. Qed.

Lemma github_where_provider h x :
  by_provider github (h_id h) x = true -> github_where h x = true.
Proof.
  intros Hx. unfold github_where, where_or.
  destruct (first_email (h_emails h)); simpl; rewrite Hx; by rewrite ?orb_true_r.
Qed.

Lemma pair_held_false skip p x rows :
  pair_held skip p (Some x) rows = false
  <-> (forall r, r ∈ rows -> by_provider p x r = true -> skip r = true).
Proof.
  unfold pair_held. rewrite existsb_false_iff. split; intros Hall r Hr.
  - intros Hp. specialize (Hall r Hr). rewrite Hp, andb_true_r in Hall.
    by apply negb_false_iff in Hall.
  - destruct (by_provider p x r) eqn:Hp; [|by rewrite andb_false_r].
    by rewrite (Hall r Hr Hp).
Qed.

Section Linking.
Variables (p : Provider) (x : string) (rt : option string) (now : Z).

Let linked (u : User) : User := apply_update now (link_data p x rt) u.

(** Linking touches neither email nor username, so it goes through as
    soon as the row exists and no other row holds the pair. *)
Lemma update_link i rows :
  update i now (link_data p x rt) rows
  = match findUnique_id i rows with
    | Some u =>
        if pair_held (by_id i) p (Some x) rows
        then Err (UniqueConstraintFailed "provider_providerId")
        else Ok (linked u, (fun r => if by_id i r then linked r else r) <$> rows)
    | None => Err RecordNotFound
    end.
Proof. unfold update. by destruct (findUnique_id i rows). Qed.

Lemma findUnique_id_elem i rows u :
  u ∈ rows -> id u = i -> exists w, findUnique_id i rows = Some w /\ id w = i.
Proof.
  intros Hu Hi. unfold findUnique_id.
  destruct (List.find (by_id i) rows) as [w|] eqn:Hf.
  - exists w. split; [done|]. apply find_some_split in Hf as (? & ? & _ & Hw & _).
    by apply by_id_true.
  - rewrite find_none_iff in Hf. specialize (Hf u Hu). apply by_id_true in Hi. congruence.
Qed.

End Linking.

Lemma find_some_elem {A} (p : A -> bool) (l : list A) (r : A) :
  List.find p l = Some r -> r ∈ l /\ p r = true.
Proof.
  intros (pre & post & -> & Hr & _)%find_some_split. split; [|done].
  apply elem_of_app. right. apply list_elem_of_here.
Qed.

(** The first call leaves in the table a row that carries the pair and
    has the id it answered with. *)
Lemma link_or_create_leaves where_ p x rt data newId now rows rows1 o1 :
  (forall d, data = Ok d -> c_provider d = p /\ c_providerId d = Some x) ->
  link_or_create where_ p x rt data newId now rows = (DoneUser o1, rows1) ->
  exists m, m ∈ rows1 /\ by_provider p x m = true /\ get o1 "id" = JStr (id m).
Proof.
  intros Hdata. unfold link_or_create.
  destruct (findFirst where_ rows) as [found|].
  - rewrite update_link.
    destruct (findUnique_id (id found) rows) as [w|] eqn:Hw; [|done].
    destruct (pair_held _ p (Some x) rows); [done|]. simpl.
    intros [= <- <-]. exists (apply_update now (link_data p x rt) w).
    apply find_some_elem in Hw as [Hin Hid].
    split; [|split; [by apply by_provider_true | by rewrite withoutPassword_id]].
    apply (list_elem_of_fmap_2' _ _ w); [done|]. by rewrite Hid.
  - destruct data as [d|e]; [|done].
    destruct (create newId now d rows) as [[u rows']|e] eqn:Hc; [|done]. simpl.
    intros [= <- <-]. unfold create in Hc.
    destruct (existsb (by_id newId) rows); [done|].
    destruct (existsb (by_email (c_email d)) rows); [done|].
    destruct (existsb (by_username (c_username d)) rows); [done|].
    destruct (pair_held _ _ _ rows); [done|].
    injection Hc as <- <-. exists (row_of newId now d).
    split; [apply elem_of_app; right; apply list_elem_of_here|].
    destruct (Hdata d eq_refl) as [Hp Hx].
    split; [by apply by_provider_true | by rewrite withoutPassword_id].
Qed.

(** A call on a table where every row the lookup accepts has the id [i],
    and one such row carries the pair: it links a row with that id. *)
Lemma link_or_create_only_match where_ p x rt data newId now rows i m :
  (forall u, by_provider p x u = true -> where_ u = true) ->
  (forall u, u ∈ rows -> where_ u = true -> id u = i) ->
  m ∈ rows -> by_provider p x m = true ->
  exists o2 rows2,
    link_or_create where_ p x rt data newId now rows = (DoneUser o2, rows2)
    /\ get o2 "id" = JStr i
    /\ length rows2 = length rows.
Proof.
  intros Hw Honly Hm Hpm. unfold link_or_create, findFirst.
  destruct (List.find where_ rows) as [v|] eqn:Hv.
  - apply find_some_elem in Hv as [Hin Hwv]. pose proof (Honly v Hin Hwv) as Hi.
    rewrite update_link.
    destruct (findUnique_id_elem (id v) rows v Hin eq_refl) as (w & -> & Hwi).
    assert (pair_held (by_id (id v)) p (Some x) rows = false) as ->.
    { apply pair_held_false. intros r Hr Hp. apply by_id_true.
      rewrite (Honly r Hr (Hw r Hp)). done. }
    simpl. eexists _, _. split; [done|]. split.
    + rewrite withoutPassword_id. simpl. congruence.
    + by rewrite length_fmap.
  - rewrite find_none_iff in Hv. specialize (Hv m Hm). rewrite (Hw m Hpm) in Hv. done.
Qed.

Lemma link_or_create_again where_ p x rt data data' newId newId' now now'
      rows rows1 rows1' o1 :
  (forall u, by_provider p x u = true -> where_ u = true) ->
  (forall d, data = Ok d -> c_provider d = p /\ c_providerId d = Some x) ->
  link_or_create where_ p x rt data newId now rows = (DoneUser o1, rows1) ->
  (forall u, u ∈ rows1 -> where_ u = true -> get o1 "id" = JStr (id u)) ->
  rows1' ≡ₚ rows1 ->
  exists o2 rows2,
    link_or_create where_ p x rt data' newId' now' rows1' = (DoneUser o2, rows2)
    /\ get o2 "id" = get o1 "id"
    /\ length rows2 = length rows1.
Proof.
  intros Hw Hdata Hfirst Honly Hperm.
  destruct (link_or_create_leaves _ _ _ _ _ _ _ _ _ _ Hdata Hfirst) as (m & Hm & Hpm & Hid).
  rewrite Hid.
  destruct (link_or_create_only_match where_ p x rt data' newId' now' rows1' (id m) m Hw)
    as (o2 & rows2 & Hrun2 & Hid2 & Hlen); [| |done|].
  - intros u Hu Hwu. rewrite Hperm in Hu. specialize (Honly u Hu Hwu).
    rewrite Hid in Honly. by injection Honly as <-.
  - by rewrite Hperm.
  - exists o2, rows2. split; [done|]. split; [done|].
    rewrite Hlen. by apply Permutation_length.
Qed.

(** C6, as the claim has it, fails: the store gives no order to its rows.
    Carol's record is linked to the Google account g-77; a login of g-77
    that reports bob's email is resolved to carol's record when the store
    reads carol before bob. The same call on the same records read in
    the other order meets bob first, tries to link him to g-77, and ends
    in an error, the pair being carol's: it does not answer with the id
    of the first call. *)
Lemma resolveOAuth_other_order :
  @resolveOAuth Sample.plain_text (Some "rt-1") (Google Sample.carol_as_bob) "id-new" 9000
    [Sample.carol; Sample.bob]
  = (DoneUser (withoutPassword
                 (full (apply_update 9000 (link_data google "g-77" (Some "rt-1"))
                                     Sample.carol))),
     [apply_update 9000 (link_data google "g-77" (Some "rt-1")) Sample.carol; Sample.bob])
  /\ [Sample.bob; apply_update 9000 (link_data google "g-77" (Some "rt-1")) Sample.carol]
     ≡ₚ [apply_update 9000 (link_data google "g-77" (Some "rt-1")) Sample.carol; Sample.bob]
  /\ @resolveOAuth Sample.plain_text (Some "rt-1") (Google Sample.carol_as_bob) "id-new" 9100
       [Sample.bob; apply_update 9000 (link_data google "g-77" (Some "rt-1")) Sample.carol]
     = (DoneError (StoreFailure (UniqueConstraintFailed "provider_providerId")),
        [Sample.bob; apply_update 9000 (link_data google "g-77" (Some "rt-1")) Sample.carol]).
Proof.
  split; [reflexivity|]. split; [apply Permutation_swap | reflexivity].
Qed.

(** C6, amended: when the record a first [resolveOAuth] answered with is
    the only one of the table that its lookup accepts, a second call with
    the same arguments answers with the same user id and leaves the
    number of records as the first call left it, in whatever order the
    store reads its rows. *)
Theorem resolveOAuth_idempotent `{JsText} (rt : option string) (profile : OAuthProfile)
        (newId newId' : string) (now now' : Z) (rows rows1 rows1' : list User)
        (o1 : gmap string JsVal) :
  resolveOAuth rt profile newId now rows = (DoneUser o1, rows1) ->
  (forall u, u ∈ rows1 -> oauth_where profile u = true -> get o1 "id" = JStr (id u)) ->
  rows1' ≡ₚ rows1 ->
  exists o2 rows2,
    resolveOAuth rt profile newId' now' rows1' = (DoneUser o2, rows2)
    /\ get o2 "id" = get o1 "id"
    /\ length rows2 = length rows1.
Proof.
  intros Hfirst Honly Hperm.
  destruct profile as [g|h]; simpl in *.
  - destruct (g_emails g) as [|mail rest] eqn:Hm.
    { unfold googleStrategy in Hfirst. by rewrite Hm in Hfirst. }
    rewrite (googleStrategy_shape _ _ _ _ _ _ _ Hm) in Hfirst.
    rewrite (googleStrategy_shape _ _ _ _ _ _ _ Hm).
    eapply link_or_create_again; [| |exact Hfirst|exact Honly|exact Hperm].
    + intros u Hu. unfold where_or. simpl. rewrite Hu. by rewrite !orb_true_r.
    + intros d Hd. destruct (g_name g); [|done]. by injection Hd as <-.
  - rewrite githubStrategy_shape in Hfirst. rewrite githubStrategy_shape.
    eapply link_or_create_again; [| |exact Hfirst|exact Honly|exact Hperm].
    + apply github_where_provider.
    + by intros d [= <-].
Qed.

Lemma resolveOAuth_idempotent_witness :
  exists o2 rows2,
    @resolveOAuth Sample.plain_text (Some "rt") (GitHub Sample.octo_new) "id-other" 9100
      (reverse (@resolveOAuth Sample.plain_text (Some "rt") (GitHub Sample.octo_new)
                  "id-octo" 9000 Sample.table).2)
    = (DoneUser o2, rows2)
    /\ get o2 "id" = JStr "id-octo"
    /\ length rows2 = 4%nat.
Proof.
  destruct (@resolveOAuth_idempotent Sample.plain_text (Some "rt") (GitHub Sample.octo_new)
              "id-octo" "id-other" 9000 9100 Sample.table
              (@resolveOAuth Sample.plain_text (Some "rt") (GitHub Sample.octo_new)
                 "id-octo" 9000 Sample.table).2
              (reverse (@resolveOAuth Sample.plain_text (Some "rt") (GitHub Sample.octo_new)
                          "id-octo" 9000 Sample.table).2)
              (withoutPassword
                 (full (mkUser "id-octo" "octo" "octo" "User" "octo@github.local" 18 None
                               github (Some "h-6") (Some "rt") 9000 9000)))
              eq_refl)
    as (o2 & rows2 & Hsecond & Hid & Hlen).
  - intros u Hu Hwhere. simpl in Hu.
    repeat (apply elem_of_cons in Hu as [-> | Hu]; [try discriminate Hwhere; reflexivity|]).
    inversion Hu.
  - apply reverse_Permutation.
  - exists o2, rows2. split; [exact Hsecond|]. split; [exact Hid | exact Hlen].
Defined.

Lemma fmap_keep_others (i : string) (f : User -> User) (l : list User) :
  (forall u, u ∈ l -> id u <> i) ->
  (fun r => if by_id i r then f r else r) <$> l = l.
Proof.
  induction l as [|a l IH]; intros Hl; [done|].
  rewrite fmap_cons, IH.
  - assert (by_id i a = false) as ->; [|done].
    apply bool_decide_eq_false, Hl, list_elem_of_here.
  - intros u Hu. by apply Hl, list_elem_of_further.
Qed.

Section UniqueColumn.
Context {K : Type} (col : User -> K).

Lemma unique_before pre r post x :
  NoDup (col <$> pre ++ r :: post) -> x ∈ pre -> col x <> col r.
Proof.
  rewrite fmap_app, fmap_cons. intros (_ & Hdisj & _)%NoDup_app Hx Heq.
  apply (Hdisj (col x)); [by apply list_elem_of_fmap_2|].
  rewrite Heq. apply list_elem_of_here.
Qed.

Lemma unique_after pre r post x :
  NoDup (col <$> pre ++ r :: post) -> x ∈ post -> col x <> col r.
Proof.
  rewrite fmap_app, fmap_cons. intros (_ & _ & Hnd)%NoDup_app Hx Heq.
  apply NoDup_cons in Hnd as [Hr _]. apply Hr. rewrite <- Heq.
  by apply list_elem_of_fmap_2.
Qed.

End UniqueColumn.

Lemma update_link_in_place p x rt now pre r post :
  NoDup (id <$> pre ++ r :: post) ->
  (forall u, u ∈ pre ++ r :: post -> by_provider p x u = true -> u = r) ->
  update (id r) now (link_data p x rt) (pre ++ r :: post)
  = Ok (apply_update now (link_data p x rt) r,
        pre ++ apply_update now (link_data p x rt) r :: post).
Proof.
  intros Hnd Honly. rewrite update_link.
  assert (findUnique_id (id r) (pre ++ r :: post) = Some r) as ->.
  { apply find_first; [|by apply by_id_true].
    intros u Hu. apply bool_decide_eq_false. by apply (unique_before id pre r post). }
  assert (pair_held (by_id (id r)) p (Some x) (pre ++ r :: post) = false) as ->.
  { apply pair_held_false. intros u Hu Hp. rewrite (Honly u Hu Hp). by apply by_id_true. }
  rewrite fmap_app, fmap_cons.
  rewrite !fmap_keep_others.
  - assert (by_id (id r) r = true) as ->; [by apply by_id_true | done].
  - intros u Hu. by apply (unique_after id pre r post).
  - intros u Hu. by apply (unique_before id pre r post).
Qed.

(** C5, as the claim has it, fails: carol's record is linked to the Google
    account g-77 and stands before bob's local record; a login of g-77 that
    reports bob's email is resolved to carol's record, and bob's record is
    left as it was, still local. *)
Lemma oauth_email_match_other_record :
  Sample.bob ∈ Sample.table_linked_first
  /\ profile_email (Google Sample.carol_as_bob) = Some (email Sample.bob)
  /\ @resolveOAuth Sample.plain_text (Some "rt-1") (Google Sample.carol_as_bob) "id-new" 9000
       Sample.table_linked_first
     = (DoneUser (withoutPassword
                    (full (apply_update 9000 (link_data google "g-77" (Some "rt-1"))
                                        Sample.carol))),
        [apply_update 9000 (link_data google "g-77" (Some "rt-1")) Sample.carol;
         Sample.alice; Sample.bob])
  /\ provider Sample.bob = local.
Proof.
  split.
  { unfold Sample.table_linked_first. do 2 apply list_elem_of_further. apply list_elem_of_here. }
  split; [reflexivity|]. split; reflexivity.
Qed.

(** C5, amended: an OAuth login that reports the email of an existing
    record, and whose pair (provider, external id) is carried by no other
    record, is resolved to that record: provider and providerId are set
    from the login, refreshToken too when the provider sent one, the
    record keeps its id, its email and its place, it is returned without
    its password, and no record is added. A local record becomes a google
    record this way. *)
Theorem oauth_links_email_match `{JsText} (rt : option string) (profile : OAuthProfile)
        (newId : string) (now : Z) (pre post : list User) (r : User) (mail : string) :
  profile_email profile = Some mail ->
  email r = mail ->
  Store.wf (pre ++ r :: post) ->
  (forall u, u ∈ pre ++ r :: post ->
             carries (profile_provider profile) (profile_id profile) u -> u = r) ->
  let r' := apply_update now (link_data (profile_provider profile) (profile_id profile) rt) r in
  resolveOAuth rt profile newId now (pre ++ r :: post)
  = (DoneUser (withoutPassword (full r')), pre ++ r' :: post)
  /\ id r' = id r /\ email r' = mail
  /\ provider r' = profile_provider profile
  /\ providerId r' = Some (profile_id profile)
  /\ (forall t, rt = Some t -> refreshToken r' = Some t)
  /\ length (pre ++ r' :: post) = length (pre ++ r :: post).
Proof.
  intros Hmail Hr (Hids & Hemails & _) Honly r'.
  assert (forall u, u ∈ pre -> email u <> mail) as Hpre_mail.
  { intros u Hu. rewrite <- Hr. by apply (unique_before email pre r post). }
  assert (forall u, u ∈ pre ->
            by_provider (profile_provider profile) (profile_id profile) u = false) as Hpre_pair.
  { intros u Hu. apply by_provider_false. intros Hc.
    apply (Hpre_mail u Hu). rewrite (Honly u); [done| |done].
    apply elem_of_app. by left. }
  split.
  - destruct profile as [g|h]; simpl in *.
    + destruct (g_emails g) as [|m rest] eqn:Hm; [done|]. injection Hmail as ->.
      rewrite (googleStrategy_shape _ _ _ _ _ _ _ Hm). unfold link_or_create, findFirst.
      rewrite (find_first _ pre r post).
      * rewrite update_link_in_place; [done|done|].
        intros u Hu Hp. apply (Honly u Hu). by apply by_provider_true.
      * intros u Hu. unfold where_or. simpl. rewrite (Hpre_pair u Hu).
        apply Hpre_mail, by_email_false in Hu. by rewrite Hu.
      * unfold where_or. simpl. apply by_email_true in Hr. by rewrite Hr.
    + rewrite githubStrategy_shape. unfold link_or_create, findFirst, github_where.
      rewrite Hmail. rewrite (find_first _ pre r post).
      * rewrite update_link_in_place; [done|done|].
        intros u Hu Hp. apply (Honly u Hu). by apply by_provider_true.
      * intros u Hu. unfold where_or. simpl. rewrite (Hpre_pair u Hu).
        apply Hpre_mail, by_email_false in Hu. by rewrite Hu.
      * unfold where_or. simpl. apply by_email_true in Hr. by rewrite Hr.
  - repeat split; try done.
    + intros t ->. done.
    + by rewrite !length_app.
Qed.

Lemma oauth_links_email_match_witness :
  @resolveOAuth Sample.plain_text (Some "rt-9") (Google Sample.alice_on_google) "id-new" 9000
    Sample.table
  = (DoneUser (withoutPassword
                 (full (mkUser "id-alice" "alice" "Alice" "Liddell" "a@x.com" 30
                               (Some "$2a$12$wonderland") google (Some "g-500")
                               (Some "rt-9") 100 9000))),
     [mkUser "id-alice" "alice" "Alice" "Liddell" "a@x.com" 30
             (Some "$2a$12$wonderland") google (Some "g-500") (Some "rt-9") 100 9000;
      Sample.bob; Sample.carol]).
Proof.
  apply (@oauth_links_email_match Sample.plain_text (Some "rt-9")
           (Google Sample.alice_on_google)
           "id-new" 9000 [] [Sample.bob; Sample.carol] Sample.alice "a@x.com").
  - reflexivity.
  - reflexivity.
  - repeat split; simpl;
      repeat (apply NoDup_cons; split;
              [rewrite ?not_elem_of_cons; repeat split; try discriminate; apply not_elem_of_nil|]);
      apply NoDup_nil_2.
  - intros u Hu [Hp Hx]. simpl in Hu.
    repeat (apply elem_of_cons in Hu as [-> | Hu]; [try done; try discriminate|]).
    inversion Hu.
Defined.

(** ** Defaults for a new OAuth account *)

(** C7, as the claim has it, fails. A GitHub profile with no email and no
    display name, whose login name [bob] is the username of an existing
    account, matches no record; the strategy takes the login name as the
    username, with no suffix, and the store refuses the new record. On a
    table where the name is free the record is created with the bare
    login name as username. A Google profile that has no [name] object
    at all ends in the [TypeError] of reading [profile.name.givenName],
    also on a table where nothing stands in the way of the new record. *)
Lemma github_login_name_taken :
  @githubStrategy Sample.plain_text None Sample.octo_bob "id-new" 9000 Sample.table
    = (DoneError (StoreFailure (UniqueConstraintFailed "username")), Sample.table)
  /\ (exists u,
        @githubStrategy Sample.plain_text None Sample.octo_new "id-new" 9000 Sample.table
          = (DoneUser (withoutPassword (full u)), Sample.table ++ [u])
        /\ username u = "octo"
        /\ email u = "octo@github.local")
  /\ googleStrategy (Some "rt") Sample.dave_nameless "id-dave" 9000 Sample.table
     = (DoneError (TypeError "profile.name.givenName"), Sample.table).
Proof.
  split; [reflexivity|]. split; [|reflexivity].
  exists (mkUser "id-new" "octo" "octo" "User" "octo@github.local" 18 None
                 github (Some "h-6") None 9000 9000).
  split; [reflexivity|]. split; reflexivity.
Qed.

Lemma create_free newId now data rows :
  (forall u, u ∈ rows ->
     id u <> newId /\ email u <> c_email data /\ username u <> c_username data) ->
  pair_held (fun _ => false) (c_provider data) (c_providerId data) rows = false ->
  create newId now data rows = Ok (row_of newId now data, rows ++ [row_of newId now data]).
Proof.
  intros Hfree Hpair. unfold create.
  assert (existsb (by_id newId) rows = false) as ->.
  { apply existsb_false_iff. intros u Hu. apply bool_decide_eq_false. by apply Hfree. }
  assert (existsb (by_email (c_email data)) rows = false) as ->.
  { apply existsb_false_iff. intros u Hu. apply by_email_false. by apply Hfree. }
  assert (existsb (by_username (c_username data)) rows = false) as ->.
  { apply existsb_false_iff. intros u Hu. apply by_username_false. by apply Hfree. }
  by rewrite Hpair.
Qed.

(** C7, amended: when no record matches the login, the id, the email and
    the username of the new record are free and, for Google, the profile
    has its [name] object, the record is created, whatever optional
    field the profile lacks. Both providers give it age 18 and no
    password. Google takes the reported email, the username
    [<local part>_<time stamp>], and [Unknown] and [User] for a missing
    given and family name. GitHub takes the login name as username and,
    absent a display name, as first name, with [User] as last name; with
    no email reported the email is [<login name>@github.local]; with
    neither login nor display name the username is
    [github_user_<time stamp>] and the names are [Unknown] and [User]. *)
Theorem oauth_create_defaults `{JsText} (rt : option string) (newId : string) (now : Z)
        (rows : list User) :
  (forall g mail rest nm,
     g_emails g = mail :: rest ->
     g_name g = Some nm ->
     (forall u, u ∈ rows ->
        id u <> newId /\ email u <> mail
        /\ username u <> local_part mail +:+ "_" +:+ Js.of_number now
        /\ ~ carries google (g_id g) u) ->
     exists u,
       googleStrategy rt g newId now rows = (DoneUser (withoutPassword (full u)), rows ++ [u])
       /\ id u = newId /\ email u = mail /\ age u = 18 /\ password u = None
       /\ provider u = google /\ providerId u = Some (g_id g) /\ refreshToken u = rt
       /\ username u = local_part mail +:+ "_" +:+ Js.of_number now
       /\ (givenName nm = None -> firstName u = "Unknown")
       /\ (familyName nm = None -> lastName u = "User")
       /\ (forall c s, givenName nm = Some (String c s) -> firstName u = String c s)
       /\ (forall c s, familyName nm = Some (String c s) -> lastName u = String c s))
  /\ (forall h,
        (forall u, u ∈ rows ->
           id u <> newId /\ email u <> github_email h
           /\ (forall m, first_email (h_emails h) = Some m -> email u <> m)
           /\ username u <> github_username h now
           /\ ~ carries github (h_id h) u) ->
        exists u,
          githubStrategy rt h newId now rows = (DoneUser (withoutPassword (full u)), rows ++ [u])
          /\ id u = newId /\ age u = 18 /\ password u = None
          /\ provider u = github /\ providerId u = Some (h_id h) /\ refreshToken u = rt
          /\ (forall c s, first_email (h_emails h) = Some (String c s) -> email u = String c s)
          /\ (forall c s, h_username h = Some (String c s) ->
              username u = String c s
              /\ (h_emails h = [] -> email u = String c s +:+ "@github.local")
              /\ (h_displayName h = None ->
                  firstName u = String c s /\ lastName u = "User"))
          /\ (h_username h = None -> h_displayName h = None ->
              username u = "github_user_" +:+ Js.of_number now
              /\ firstName u = "Unknown" /\ lastName u = "User")).
Proof.
  split.
  - intros g mail rest nm Hm Hnm Hfree.
    rewrite (googleStrategy_shape _ _ _ _ _ _ _ Hm), Hnm. unfold link_or_create, findFirst.
    assert (List.find (where_or [by_email mail; by_provider google (g_id g)]) rows = None) as ->.
    { apply find_none_iff. intros u Hu. destruct (Hfree u Hu) as (_ & He & _ & Hc).
      unfold where_or. simpl. apply by_email_false in He. apply by_provider_false in Hc.
      by rewrite He, Hc. }
    rewrite create_free.
    + eexists. split; [reflexivity|]. simpl. do 8 (split; [done|]).
      split; [by intros ->|]. split; [by intros ->|].
      split; by intros c s ->.
    + intros u Hu. destruct (Hfree u Hu) as (Hi & He & Hn & _). done.
    + apply pair_held_false. intros u Hu Hp. destruct (Hfree u Hu) as (_ & _ & _ & Hc).
      apply by_provider_false in Hc. simpl in Hp. congruence.
  - intros h Hfree.
    rewrite githubStrategy_shape. unfold link_or_create, findFirst.
    assert (List.find (github_where h) rows = None) as ->.
    { apply find_none_iff. intros u Hu. destruct (Hfree u Hu) as (_ & _ & He & _ & Hc).
      apply by_provider_false in Hc. unfold github_where, where_or.
      destruct (first_email (h_emails h)) as [m|]; simpl; rewrite Hc; [|done].
      specialize (He m eq_refl). apply by_email_false in He. by rewrite He. }
    rewrite create_free.
    + eexists. split; [reflexivity|]. simpl. do 6 (split; [done|]).
      split; [|split].
      * intros c s Hmail. unfold github_email. by rewrite Hmail.
      * intros c s Hlogin. split; [|split].
        -- unfold github_username. by rewrite Hlogin.
        -- intros Hnil. unfold github_email. by rewrite Hnil, Hlogin.
        -- intros Hname. unfold github_firstName, github_lastName.
           by rewrite Hname, Hlogin.
      * intros Hlogin Hname.
        unfold github_username, github_firstName, github_lastName.
        by rewrite Hlogin, Hname.
    + intros u Hu. destruct (Hfree u Hu) as (Hi & He & _ & Hn & _). done.
    + apply pair_held_false. intros u Hu Hp. destruct (Hfree u Hu) as (_ & _ & _ & _ & Hc).
      apply by_provider_false in Hc. simpl in Hp. congruence.
Qed.

Lemma oauth_create_defaults_witness :
  (exists u,
     googleStrategy (Some "rt") Sample.dave "id-dave" 9000 Sample.table
     = (DoneUser (withoutPassword (full u)), Sample.table ++ [u])
     /\ username u = "dave_9000" /\ firstName u = "Unknown" /\ lastName u = "User"
     /\ age u = 18)
  /\ (exists u,
        @githubStrategy Sample.plain_text None Sample.octo_new "id-octo" 9000 Sample.table
        = (DoneUser (withoutPassword (full u)), Sample.table ++ [u])
        /\ username u = "octo" /\ email u = "octo@github.local"
        /\ firstName u = "octo" /\ lastName u = "User").
Proof.
  split.
  - destruct (proj1 (@oauth_create_defaults Sample.plain_text (Some "rt") "id-dave" 9000
                       Sample.table)
                Sample.dave "dave@x.com" [] (mkName None None) eq_refl eq_refl)
      as (u & Hrun & _ & _ & Hage & _ & _ & _ & _ & Hname & Hfirst & Hlast & _).
    { intros u Hu. unfold carries.
      repeat (apply elem_of_cons in Hu as [-> | Hu];
              [repeat split; try discriminate; intros [? ?]; discriminate|]).
      inversion Hu. }
    exists u. split; [exact Hrun|]. split; [exact Hname|].
    split; [exact (Hfirst eq_refl)|]. split; [exact (Hlast eq_refl) | exact Hage].
  - destruct (proj2 (@oauth_create_defaults Sample.plain_text None "id-octo" 9000
                       Sample.table) Sample.octo_new)
      as (u & Hrun & _ & _ & _ & _ & _ & _ & _ & Hlogin & _).
    { intros u Hu. unfold carries.
      repeat (apply elem_of_cons in Hu as [-> | Hu];
              [repeat split; try discriminate; intros [? ?]; discriminate|]).
      inversion Hu. }
    destruct (Hlogin "o"%char "cto" eq_refl) as (Hname & Hmail & Hnames).
    destruct (Hnames eq_refl) as (Hfirst & Hlast).
    exists u. split; [exact Hrun|]. split; [exact Hname|].
    split; [exact (Hmail eq_refl)|]. split; [exact Hfirst | exact Hlast].
Defined.

(** * Further properties of the subsystem *)

(** ** Registration and the first login *)

Lemma generateToken_userId `{JwtLib} env clock uid t :
  generateToken env clock uid = Some t -> userId (claims t) = uid.
Proof.
  unfold generateToken, sign.
  destruct (JWT_SECRET env) as [[|c k]|]; try done.
  destruct (ms (expiresIn env)); [|done]. by intros [= <-].
Qed.

(** Whether the issuer can sign depends on the environment alone. *)
Lemma generateToken_again `{JwtLib} env clock uid t clock' uid' :
  generateToken env clock uid = Some t -> is_Some (generateToken env clock' uid').
Proof.
  unfold generateToken, sign.
  destruct (JWT_SECRET env) as [[|c k]|]; try done.
  destruct (ms (expiresIn env)); [|done]. intros _. by eexists.
Qed.

Lemma findFirst_free mail name rows :
  (forall u, u ∈ rows -> email u <> mail /\ username u <> name) ->
  findFirst (where_or [by_email mail; by_username name]) rows = None.
Proof.
  intros Hfree. apply find_none_iff. intros u Hu. destruct (Hfree u Hu) as [He Hn].
  unfold where_or. simpl. apply by_email_false in He. apply by_username_false in Hn.
  by rewrite He, Hn.
Qed.

Lemma generateToken_some `{JwtLib} env clock uid :
  Js.truthy (JWT_SECRET env) = true -> is_Some (ms (expiresIn env)) ->
  exists t, generateToken env clock uid = Some t /\ userId (claims t) = uid.
Proof.
  unfold generateToken, sign. intros Hs [w Hw].
  destruct (JWT_SECRET env) as [[|c k]|]; try done.
  rewrite Hw. by eexists.
Qed.

(** X1: a registration whose email and username are held by no record,
    with a fresh id, a signing secret and a readable expiry window, is
    answered 201; exactly one record is appended, local, with the hash of
    the password in place of the password, and the token names the new
    record. *)
Theorem register_creates `{Bcrypt} `{JwtLib} (env : Env) (body : RegisterBody)
        (newId : string) (now : Z) (rows : list User) :
  (forall u, u ∈ rows ->
     id u <> newId /\ email u <> r_email body /\ username u <> r_username body) ->
  Js.truthy (JWT_SECRET env) = true ->
  is_Some (ms (expiresIn env)) ->
  let created :=
    mkUser newId (r_username body) (r_firstName body) (r_lastName body) (r_email body)
           (r_age body) (Some (bcrypt_hash (r_password body) 12)) local None None now now in
  exists t,
    register env body newId now rows
    = (mkResponse 201 None "User registered successfully" (Some (selected created)) (Some t),
       rows ++ [created])
    /\ userId (claims t) = JStr newId.
Proof.
  intros Hfree Hsecret Hwindow created. unfold register.
  rewrite findFirst_free by (intros u Hu; destruct (Hfree u Hu) as (_ & ? & ?); done).
  rewrite create_free by done. simpl.
  destruct (generateToken_some env (now / 1000) (JStr newId) Hsecret Hwindow)
    as (t & Ht & Hid).
  change (get (selected (row_of newId now _)) "id") with (JStr newId).
  rewrite Ht. by exists t.
Qed.

Lemma register_creates_witness :
  exists t,
    @register Sample.plain_bcrypt Sample.plain_jwt Sample.env
      (mkRegister "jdoe" "John" "Doe" "j@x.com" 25 "Secur3!@#") "id-jdoe" 7000 Sample.table
    = (mkResponse 201 None "User registered successfully"
         (Some (selected (mkUser "id-jdoe" "jdoe" "John" "Doe" "j@x.com" 25
                                 (Some "$2a$12$Secur3!@#") local None None 7000 7000)))
         (Some t),
       Sample.table ++ [mkUser "id-jdoe" "jdoe" "John" "Doe" "j@x.com" 25
                               (Some "$2a$12$Secur3!@#") local None None 7000 7000])
    /\ userId (claims t) = JStr "id-jdoe".
Proof.
  apply (@register_creates Sample.plain_bcrypt Sample.plain_jwt Sample.env
           (mkRegister "jdoe" "John" "Doe" "j@x.com" 25 "Secur3!@#") "id-jdoe" 7000
           Sample.table).
  - intros u Hu.
    repeat (apply elem_of_cons in Hu as [-> | Hu]; [repeat split; discriminate|]).
    inversion Hu.
  - reflexivity.
  - by eexists.
Defined.

Lemma register_created_inv `{Bcrypt} `{JwtLib} env body newId now rows res rows' :
  register env body newId now rows = (res, rows') -> status res = 201 ->
  findFirst (where_or [by_email (r_email body); by_username (r_username body)]) rows = None
  /\ rows' = rows ++ [row_of newId now
                        {| c_username := r_username body; c_firstName := r_firstName body;
                           c_lastName := r_lastName body; c_email := r_email body;
                           c_age := r_age body;
                           c_password := Some (bcrypt_hash (r_password body) 12);
                           c_provider := local; c_providerId := None;
                           c_refreshToken := None |}]
  /\ (exists t, generateToken env (now / 1000) (JStr newId) = Some t)
  /\ get (default ∅ (user res)) "id" = JStr newId.
Proof.
  unfold register.
  destruct (findFirst _ rows) as [e|]; [by intros [= <- <-]|].
  destruct (create _ _ _ rows) as [[u rows1]|e] eqn:Hc; [|by intros [= <- <-]].
  unfold create in Hc.
  destruct (existsb (by_id newId) rows); [done|].
  destruct (existsb (by_email _) rows); [done|].
  destruct (existsb (by_username _) rows); [done|].
  injection Hc as <- <-. simpl.
  change (get (selected (row_of newId now _)) "id") with (JStr newId).
  destruct (generateToken env (now / 1000) (JStr newId)) as [t|] eqn:Ht;
    [|by intros [= <- <-]].
  intros [= <- <-] _. split; [done|]. split; [done|]. split; [by exists t | done].
Qed.

(** X2: after a registration answered 201, a login with the same email
    and password is answered 200 for the same user id, provided the
    hashing library verifies a password against its own hash and both
    credentials are non-empty. *)
Theorem register_then_login `{Bcrypt} `{JwtLib} (env : Env) (body : RegisterBody)
        (newId : string) (now now' : Z) (rows rows' : list User) (res : Response) :
  (forall p, bcrypt_compare p (bcrypt_hash p 12) = true) ->
  (forall p, bcrypt_hash p 12 <> "") ->
  r_email body <> "" -> r_password body <> "" ->
  register env body newId now rows = (res, rows') ->
  status res = 201 ->
  exists res',
    login env (r_email body) (r_password body) true now' rows' = Ok res'
    /\ status res' = 200
    /\ get (default ∅ (user res')) "id" = get (default ∅ (user res)) "id"
    /\ default ∅ (user res') !! "password" = None.
Proof.
  intros Hlaw Hhash Hmail Hpw Hreg Hst.
  destruct (register_created_inv _ _ _ _ _ _ _ Hreg Hst) as (Hnone & -> & [t Ht] & Hid).
  rewrite Hid. unfold login, authenticate_local.
  assert (Js.truthy (Some (r_email body)) && Js.truthy (Some (r_password body)) = true)%bool
    as ->.
  { destruct (r_email body); [done|]. by destruct (r_password body). }
  unfold localStrategy, findUnique_email.
  rewrite find_first.
  - simpl. destruct (bcrypt_hash (r_password body) 12) as [|c h] eqn:Hh.
    { by destruct (Hhash (r_password body)). }
    rewrite <- Hh, Hlaw.
    change (get (withoutPassword (full (row_of newId now _))) "id") with (JStr newId).
    destruct (generateToken_again env _ _ t (now' / 1000) (JStr newId) Ht) as [t' ->].
    eexists. split; [done|]. split; [done|]. split; [done|]. apply password_stripped.
  - intros u Hu. unfold findFirst in Hnone. rewrite find_none_iff in Hnone.
    specialize (Hnone u Hu). unfold where_or in Hnone. simpl in Hnone.
    by apply orb_false_iff in Hnone as [? _].
  - by apply by_email_true.
Qed.

Lemma register_then_login_witness :
  exists res',
    @login Sample.plain_bcrypt Sample.plain_jwt Sample.env "j@x.com" "Secur3!@#" true 8000
      (@register Sample.plain_bcrypt Sample.plain_jwt Sample.env
         (mkRegister "jdoe" "John" "Doe" "j@x.com" 25 "Secur3!@#") "id-jdoe" 7000
         Sample.table).2
    = Ok res'
    /\ status res' = 200
    /\ get (default ∅ (user res')) "id" = JStr "id-jdoe"
    /\ default ∅ (user res') !! "password" = None.
Proof.
  apply (@register_then_login Sample.plain_bcrypt Sample.plain_jwt Sample.env
           (mkRegister "jdoe" "John" "Doe" "j@x.com" 25 "Secur3!@#") "id-jdoe" 7000 8000
           Sample.table _
           (@register Sample.plain_bcrypt Sample.plain_jwt Sample.env
              (mkRegister "jdoe" "John" "Doe" "j@x.com" 25 "Secur3!@#") "id-jdoe" 7000
              Sample.table).1).
  - intros p. simpl. by apply bool_decide_eq_true.
  - intros p. simpl. discriminate.
  - discriminate.
  - discriminate.
  - reflexivity.
  - reflexivity.
Defined.

(** ** The gate, once more *)

(** X3: the mandatory gate lets no anonymous request through. When
    [authenticate] calls the next handler, either the session mechanism
    vouched for the request, or the request carries the selected columns
    of a record of the table whose id a verified token named; every
    answer it gives itself is a 401 or a 500. *)
Theorem authenticate_no_anonymous `{JwtLib} (env : Env) (now : Z) (rows : list User)
        (req : Request) :
  match authenticate env now rows req with
  | Next req' =>
      (req' = req /\ isAuthenticated req = true
       /\ Js.truthy (bearer (authorization req)) = false)
      \/ (exists tok d u,
             bearer (authorization req) = Some tok
             /\ verifyToken env (now / 1000) tok = Ok d
             /\ u ∈ rows /\ userId d = JStr (id u)
             /\ req_user req' = Some (selected u))
  | Reply res => status res = 401 \/ status res = 500
  end.
Proof.
  unfold authenticate.
  destruct (Js.truthy (bearer (authorization req))) eqn:Hb.
  - unfold authenticateJWT.
    destruct (bearer (authorization req)) as [[|c t]|]; try done.
    destruct (verifyToken env (now / 1000) (String c t)) as [d|[]] eqn:Hv;
      [|by left|by left].
    destruct (userId d) as [| |i|n] eqn:Hid; simpl; try by right.
    destruct (findUnique_id i rows) as [u|] eqn:Hu; [|by left].
    right. exists (String c t), d, u.
    apply find_some_split in Hu as (pre & post & -> & Hi & _).
    apply by_id_true in Hi. subst i. repeat split; try done.
    apply elem_of_app. right. apply list_elem_of_here.
  - unfold authenticateSession.
    destruct (isAuthenticated req) eqn:Hs; [|by left]. by left.
Qed.

(** X4: whenever the mandatory gate lets a request through,
    [optionalAuth] hands on the very same request. *)
Theorem optionalAuth_agrees `{JwtLib} (env : Env) (now : Z) (rows : list User)
        (req req' : Request) :
  authenticate env now rows req = Next req' ->
  optionalAuth env now rows req = Next req'.
Proof.
  unfold authenticate, optionalAuth, authenticateJWT, authenticateSession.
  destruct (bearer (authorization req)) as [[|c t]|]; simpl.
  - destruct (isAuthenticated req); [by intros [= <-] | done].
  - destruct (verifyToken env (now / 1000) (String c t)) as [d|[]]; try done.
    destruct (findUnique_where_id (userId d) rows) as [[u|]|e]; done.
  - destruct (isAuthenticated req); [by intros [= <-] | done].
Qed.

Lemma optionalAuth_agrees_witness :
  @optionalAuth Sample.plain_jwt Sample.env 2000000 Sample.table
    (Sample.with_header (Some ("Bearer " +:+ Sample.alice_wire)))
  = Next (attach (Sample.with_header (Some ("Bearer " +:+ Sample.alice_wire)))
                 (selected Sample.alice)).
Proof.
  apply (@optionalAuth_agrees Sample.plain_jwt Sample.env 2000000 Sample.table).
  reflexivity.
Defined.

(** X5: with a signing library that reads back what it writes, the token
    issued for the id of a record of the table, sent as a bearer token
    before the configured window (seven days when none is configured)
    has run out, opens the mandatory gate: the next handler is called
    with the selected columns of that record as [req.user], and with the
    header and the session flag of the request as they came. *)
Theorem issued_token_opens_gate `{JwtLib} (env : Env) (issued now : Z) (t : Jwt) (w : Z)
        (u : User) (rows : list User) (req : Request) :
  Lawful ->
  generateToken env issued (JStr (id u)) = Some t ->
  (exists a s, JWT_EXPIRES_IN env = Some (String a s) /\ ms (String a s) = Some w)
  \/ (Js.truthy (JWT_EXPIRES_IN env) = false /\ w = 7 * 24 * 60 * 60 * 1000) ->
  authorization req = Some ("Bearer " +:+ encode t) ->
  now / 1000 < issued + w / 1000 ->
  findUnique_id (id u) rows = Some u ->
  exists req',
    authenticate env now rows req = Next req'
    /\ req_user req' = Some (selected u)
    /\ authorization req' = authorization req
    /\ isAuthenticated req' = isAuthenticated req.
Proof.
  intros (Hdec & Hsp & Hne) Hgen Hwindow Hh Hnow Hu.
  assert (ms (expiresIn env) = Some w) as Hw.
  { unfold expiresIn. destruct Hwindow as [(a & s & -> & Hms) | [Hunset ->]]; [done|].
    by destruct (JWT_EXPIRES_IN env) as [[|a s]|]. }
  assert (bearer (authorization req) = Some (encode t)) as Hb.
  { rewrite Hh. apply (bearer_second_segment "Bearer" (encode t)); [done|].
    rewrite has_space_includes. apply Hsp. }
  unfold authenticate, authenticateJWT. rewrite Hb.
  destruct (encode t) as [|c s] eqn:Hwire; [by destruct (Hne t)|].
  simpl Js.truthy. cbv iota.
  unfold verifyToken, verify. rewrite <- Hwire, Hdec.
  unfold generateToken, sign in Hgen.
  destruct (JWT_SECRET env) as [[|c' k]|]; try done.
  rewrite Hw in Hgen. injection Hgen as <-.
  unfold verify_decoded. simpl.
  rewrite bool_decide_eq_true_2 by done.
  rewrite bool_decide_eq_false_2 by lia. simpl. rewrite Hu.
  by eexists.
Qed.

Lemma issued_token_opens_gate_witness :
  exists req',
    @authenticate Sample.plain_jwt Sample.env 605799999 Sample.table
      (Sample.with_header (Some ("Bearer " +:+ Sample.alice_wire)))
    = Next req'
    /\ req_user req' = Some (selected Sample.alice)
    /\ authorization req' = Some ("Bearer " +:+ Sample.alice_wire)
    /\ isAuthenticated req' = false.
Proof.
  apply (@issued_token_opens_gate Sample.plain_jwt Sample.env 1000 605799999
           (mkJwt Sample.alice_claims "s3cret") (7 * 24 * 60 * 60 * 1000) Sample.alice
           Sample.table
           (Sample.with_header (Some ("Bearer " +:+ Sample.alice_wire)))
           plain_jwt_lawful eq_refl (or_intror (conj eq_refl eq_refl)));
    reflexivity.
Defined.

Lemma split_two_spaces (a b : string) :
  has_space a = false -> Js.split " " (a +:+ "  " +:+ b) !! 1%nat = Some "".
Proof.
  intros Ha.
  change (a +:+ "  " +:+ b) with (a +:+ " " +:+ (" " +:+ b)).
  by rewrite (split_at_first_space _ _ Ha).
Qed.

Lemma split_second_of_three (a b c : string) :
  has_space a = false -> has_space b = false ->
  Js.split " " (a +:+ " " +:+ b +:+ " " +:+ c) !! 1%nat = Some b.
Proof.
  intros Ha Hb. rewrite (split_at_first_space _ _ Ha). simpl.
  by rewrite (split_at_first_space _ _ Hb).
Qed.

(** X6: two edges of the token extraction. With two spaces after the
    scheme the second segment is empty, so the gate sees no token and
    leaves the request to the session, whatever the rest of the header
    holds. With something after the token, the gate takes the segment
    between the first two spaces and ignores the rest. *)
Theorem bearer_segments `{JwtLib} (env : Env) (now : Z) (rows : list User) (req : Request)
        (scheme value rest : string) :
  has_space scheme = false ->
  (authorization req = Some (scheme +:+ "  " +:+ rest) ->
   authenticate env now rows req = authenticateSession req)
  /\ (has_space value = false ->
      authorization req = Some (scheme +:+ " " +:+ value +:+ " " +:+ rest) ->
      bearer (authorization req) = Some value).
Proof.
  intros Hs. split.
  - intros Hh. unfold authenticate. rewrite Hh.
    assert (bearer (Some (scheme +:+ "  " +:+ rest)) = Some "") as ->; [|done].
    unfold bearer. pose proof (split_two_spaces scheme rest Hs) as Hsplit.
    destruct scheme; exact Hsplit.
  - intros Hv Hh. rewrite Hh. unfold bearer.
    pose proof (split_second_of_three scheme value rest Hs Hv) as Hsplit.
    destruct scheme; exact Hsplit.
Qed.

Lemma bearer_segments_witness :
  @authenticate Sample.plain_jwt Sample.env 2000000 Sample.table
    (Sample.with_header (Some ("Bearer  " +:+ Sample.alice_wire)))
  = Reply (failure 401 "Unauthorized" "Please log in to access this resource")
  /\ bearer (Some ("Bearer " +:+ Sample.alice_wire +:+ " and more")) = Some Sample.alice_wire.
Proof.
  split.
  - apply (proj1 (@bearer_segments Sample.plain_jwt Sample.env 2000000 Sample.table
                    (Sample.with_header (Some ("Bearer  " +:+ Sample.alice_wire)))
                    "Bearer" "" Sample.alice_wire eq_refl)).
    reflexivity.
  - apply (proj2 (@bearer_segments Sample.plain_jwt Sample.env 2000000 Sample.table
                    (Sample.with_header (Some ("Bearer " +:+ Sample.alice_wire +:+ " and more")))
                    "Bearer" Sample.alice_wire "and more" eq_refl));
      reflexivity.
Defined.

(** ** The table under the handlers *)

Lemma sample_table_wf : Store.wf Sample.table.
Proof.
  repeat split; simpl;
    repeat (apply NoDup_cons; split;
            [rewrite ?not_elem_of_cons; repeat split; try discriminate; apply not_elem_of_nil|]);
    apply NoDup_nil_2.
Qed.

Lemma fmap_in_place (f : User -> User) pre r post :
  NoDup (id <$> pre ++ r :: post) ->
  (fun x => if by_id (id r) x then f x else x) <$> (pre ++ r :: post) = pre ++ f r :: post.
Proof.
  intros Hnd. rewrite fmap_app, fmap_cons, !fmap_keep_others.
  - assert (by_id (id r) r = true) as ->; [by apply by_id_true | done].
  - intros u Hu. by apply (unique_after id pre r post).
  - intros u Hu. by apply (unique_before id pre r post).
Qed.

Lemma findUnique_id_in_place pre r post :
  NoDup (id <$> pre ++ r :: post) -> findUnique_id (id r) (pre ++ r :: post) = Some r.
Proof.
  intros Hnd. apply find_first; [|by apply by_id_true].
  intros u Hu. apply bool_decide_eq_false. by apply (unique_before id pre r post).
Qed.

Lemma update_inv i now d rows u' rows' :
  update i now d rows = Ok (u', rows') ->
  exists u, findUnique_id i rows = Some u
            /\ u' = apply_update now d u
            /\ rows' = (fun r => if by_id i r then apply_update now d r else r) <$> rows
            /\ taken_by_other i email (d_email d) rows = false
            /\ taken_by_other i username (d_username d) rows = false.
Proof.
  unfold update. destruct (findUnique_id i rows) as [u|]; [|done].
  destruct (taken_by_other i email (d_email d) rows); [done|].
  destruct (taken_by_other i username (d_username d) rows); [done|].
  destruct (sets_pair d && pair_held _ _ _ rows)%bool; [done|].
  intros [= <- <-]. by exists u.
Qed.
(** ** Registration without a signing secret *)

Lemma generateToken_none `{JwtLib} env clock uid :
  Js.truthy (JWT_SECRET env) = false -> generateToken env clock uid = None.
Proof.
  unfold generateToken, sign. by destruct (JWT_SECRET env) as [[|c k]|].
Qed.

(** X8: when the issuer has no signing secret, a registration that
    collides with nothing is answered 500 although its record has been
    created; the same registration sent again is refused because the
    email now exists. *)
Theorem register_unsigned `{Bcrypt} `{JwtLib} (env : Env) (body : RegisterBody)
        (newId newId' : string) (now now' : Z) (rows : list User) :
  (forall u, u ∈ rows ->
     id u <> newId /\ email u <> r_email body /\ username u <> r_username body) ->
  Js.truthy (JWT_SECRET env) = false ->
  let created :=
    mkUser newId (r_username body) (r_firstName body) (r_lastName body) (r_email body)
           (r_age body) (Some (bcrypt_hash (r_password body) 12)) local None None now now in
  register env body newId now rows
  = (failure 500 "Internal Server Error" "Failed to register user", rows ++ [created])
  /\ register env body newId' now' (rows ++ [created])
     = (failure 400 "User Already Exists" "User with this email already exists",
        rows ++ [created]).
Proof.
  intros Hfree Hsecret created. split.
  - unfold register.
    rewrite findFirst_free by (intros u Hu; destruct (Hfree u Hu) as (_ & ? & ?); done).
    rewrite create_free by done. simpl. by rewrite generateToken_none.
  - unfold register, findFirst. rewrite (find_first _ rows created []).
    + simpl. by rewrite bool_decide_eq_true_2.
    + intros u Hu. destruct (Hfree u Hu) as (_ & He & Hn). unfold where_or. simpl.
      apply by_email_false in He. apply by_username_false in Hn. by rewrite He, Hn.
    + unfold where_or. simpl. assert (by_email (r_email body) created = true) as ->; [|done].
      by apply by_email_true.
Qed.

Lemma register_unsigned_witness :
  @register Sample.plain_bcrypt Sample.plain_jwt (mkEnv None None)
    (mkRegister "jdoe" "John" "Doe" "j@x.com" 25 "Secur3!@#") "id-jdoe" 7000 Sample.table
  = (failure 500 "Internal Server Error" "Failed to register user",
     Sample.table ++ [mkUser "id-jdoe" "jdoe" "John" "Doe" "j@x.com" 25
                             (Some "$2a$12$Secur3!@#") local None None 7000 7000]).
Proof.
  apply (proj1 (@register_unsigned Sample.plain_bcrypt Sample.plain_jwt (mkEnv None None)
                  (mkRegister "jdoe" "John" "Doe" "j@x.com" 25 "Secur3!@#")
                  "id-jdoe" "id-other" 7000 7100 Sample.table
                  ltac:(intros u Hu;
                        repeat (apply elem_of_cons in Hu as [-> | Hu];
                                [repeat split; discriminate|]);
                        inversion Hu)
                  eq_refl)).
Defined.

(** ** Profile updates *)

Lemma taken_by_other_free i (col : User -> string) v rows :
  (forall r, r ∈ rows -> id r <> i -> Some (col r) <> v) ->
  taken_by_other i col v rows = false.
Proof.
  intros Hfree. destruct v as [x|]; [|done]. unfold taken_by_other.
  apply existsb_false_iff. intros r Hr.
  destruct (by_id i r) eqn:Hi; [done|]. simpl.
  apply bool_decide_eq_false. intros Hc.
  apply (Hfree r Hr); [|by rewrite Hc].
  unfold by_id in Hi. by apply bool_decide_eq_false in Hi.
Qed.

Lemma taken_filters_free body u :
  Some (username u) <> u_username body -> Some (email u) <> u_email body ->
  where_or (taken_filters body) u = false.
Proof.
  intros Hn He. unfold where_or, taken_filters.
  rewrite existsb_app. apply orb_false_iff. split.
  - destruct (u_username body) as [[|c n]|]; simpl; try done.
    rewrite orb_false_r. apply by_username_false. congruence.
  - destruct (u_email body) as [[|c n]|]; simpl; try done.
    rewrite orb_false_r. apply by_email_false. congruence.
Qed.

(** X9: a profile update whose username and email are held by no other
    record is answered 200 with the selected columns of the updated
    record. Only the caller's record changes, in place and only in the
    columns the body names and [updatedAt]; its id, password, provider,
    providerId and refreshToken stay. This covers a caller who sends back
    the username and email the record already has. *)
Theorem updateProfile_accepts (req_user : gmap string JsVal) (body : UpdateBody) (now : Z)
        (pre post : list User) (me : User) :
  NoDup (id <$> pre ++ me :: post) ->
  get req_user "id" = JStr (id me) ->
  (forall r, r ∈ pre ++ me :: post -> id r <> id me ->
     Some (username r) <> u_username body /\ Some (email r) <> u_email body) ->
  let me' :=
    mkUser (id me) (or_keep (u_username body) (username me))
           (or_keep (u_firstName body) (firstName me))
           (or_keep (u_lastName body) (lastName me))
           (or_keep (u_email body) (email me))
           (or_keep (u_age body) (age me))
           (password me) (provider me) (providerId me) (refreshToken me)
           (createdAt me) now in
  updateProfile req_user body now (pre ++ me :: post)
  = (mkResponse 200 None "Profile updated successfully" (Some (selected me')) None,
     pre ++ me' :: post).
Proof.
  intros Hnd Hid Hfree me'. unfold updateProfile. rewrite Hid.
  assert (findFirst (fun u => (id_not (JStr (id me)) u && where_or (taken_filters body) u)%bool)
            (pre ++ me :: post) = None) as Hnone.
  { apply find_none_iff. intros u Hu. simpl.
    destruct (by_id (id me) u) eqn:Hi; [done|]. simpl.
    unfold by_id in Hi. apply bool_decide_eq_false in Hi.
    destruct (Hfree u Hu Hi). by apply taken_filters_free. }
  rewrite Hnone. destruct (Js.truthy _ || Js.truthy _)%bool; unfold update;
    rewrite (findUnique_id_in_place _ _ _ Hnd); simpl d_email; simpl d_username;
    rewrite !taken_by_other_free by (intros r Hr Hi; by destruct (Hfree r Hr Hi));
    by rewrite (fmap_in_place _ _ _ _ Hnd).
Qed.

Lemma updateProfile_accepts_witness :
  updateProfile (selected Sample.alice)
    (mkUpdateBody (Some "alice") (Some "Alicia") None (Some "a@x.com") None) 9000 Sample.table
  = (mkResponse 200 None "Profile updated successfully"
       (Some (selected (mkUser "id-alice" "alice" "Alicia" "Liddell" "a@x.com" 30
                               (Some "$2a$12$wonderland") local None None 100 9000)))
       None,
     [mkUser "id-alice" "alice" "Alicia" "Liddell" "a@x.com" 30
             (Some "$2a$12$wonderland") local None None 100 9000;
      Sample.bob; Sample.carol]).
Proof.
  apply (updateProfile_accepts (selected Sample.alice)
           (mkUpdateBody (Some "alice") (Some "Alicia") None (Some "a@x.com") None) 9000
           [] [Sample.bob; Sample.carol] Sample.alice).
  - apply sample_table_wf.
  - reflexivity.
  - intros r Hr Hi. simpl in Hr.
    repeat (apply elem_of_cons in Hr as [-> | Hr]; [try done; split; discriminate|]).
    inversion Hr.
Defined.

(** X10: a profile update that asks for a username or an email another
    record holds is answered 400 Conflict, with one of the two conflict
    messages, and writes nothing. *)
Theorem updateProfile_conflict (req_user : gmap string JsVal) (body : UpdateBody) (now : Z)
        (rows : list User) (i : string) (other : User) :
  get req_user "id" = JStr i ->
  other ∈ rows -> id other <> i ->
  (Js.truthy (u_username body) = true /\ Some (username other) = u_username body)
  \/ (Js.truthy (u_email body) = true /\ Some (email other) = u_email body) ->
  exists msg,
    updateProfile req_user body now rows = (failure 400 "Conflict" msg, rows)
    /\ (msg = "Username is already taken" \/ msg = "Email is already in use").
Proof.
  intros Hid Hin Hne Hheld. unfold updateProfile. rewrite Hid.
  assert (Js.truthy (u_username body) || Js.truthy (u_email body) = true)%bool as ->.
  { destruct Hheld as [[-> _] | [-> _]]; [done | by rewrite orb_true_r]. }
  destruct (findFirst _ rows) as [e|] eqn:Hf.
  - eexists. split; [done|]. by destruct (bool_decide _); [left | right].
  - exfalso. unfold findFirst in Hf. rewrite find_none_iff in Hf.
    specialize (Hf other Hin). simpl in Hf.
    assert (by_id i other = false) as Hi by (by apply bool_decide_eq_false).
    rewrite Hi in Hf. simpl in Hf. unfold where_or, taken_filters in Hf.
    rewrite existsb_app in Hf. apply orb_false_iff in Hf as [Hn He].
    destruct Hheld as [[Ht Heq] | [Ht Heq]].
    + rewrite Ht, <- Heq in Hn. simpl in Hn. rewrite orb_false_r in Hn.
      by apply by_username_false in Hn.
    + rewrite Ht, <- Heq in He. simpl in He. rewrite orb_false_r in He.
      by apply by_email_false in He.
Qed.

Lemma updateProfile_conflict_witness :
  exists msg,
    updateProfile (selected Sample.alice)
      (mkUpdateBody None None None (Some "b@x.com") None) 9000 Sample.table
    = (failure 400 "Conflict" msg, Sample.table)
    /\ (msg = "Username is already taken" \/ msg = "Email is already in use").
Proof.
  apply (updateProfile_conflict (selected Sample.alice)
           (mkUpdateBody None None None (Some "b@x.com") None) 9000 Sample.table
           "id-alice" Sample.bob).
  - reflexivity.
  - apply list_elem_of_further, list_elem_of_here.
  - discriminate.
  - right. split; reflexivity.
Defined.

Lemma find_fmap_commute {A} (p : A -> bool) (g : A -> A) (l : list A) :
  (forall x, p (g x) = p x) -> List.find p (g <$> l) = g <$> List.find p l.
Proof.
  intros Hp. induction l as [|a l IH]; [done|].
  rewrite fmap_cons. simpl. rewrite Hp. by destruct (p a).
Qed.

(** X11: after a profile update answered 200, getProfile for the same
    caller answers with the very user the update returned. *)
Theorem getProfile_after_update (req_user : gmap string JsVal) (body : UpdateBody) (now : Z)
        (rows rows' : list User) (res : Response) :
  updateProfile req_user body now rows = (res, rows') ->
  status res = 200 ->
  getProfile req_user rows'
  = mkResponse 200 None "Profile retrieved successfully" (user res) None.
Proof.
  unfold updateProfile, getProfile.
  destruct (if (_ || _)%bool then _ else _); [by intros [= <- <-]|].
  destruct (get req_user "id") as [| |i|n]; try by intros [= <- <-].
  destruct (update i now _ rows) as [[u' rows1]|e] eqn:Hu; [|by intros [= <- <-]].
  intros [= <- <-] _. simpl.
  apply update_inv in Hu as (u & Hfind & -> & -> & _).
  unfold findUnique_id in *. rewrite find_fmap_commute.
  - rewrite Hfind. apply find_some_split in Hfind as (? & ? & _ & Hi & _).
    simpl. by rewrite Hi.
  - intros x. destruct (by_id i x) eqn:Hx; exact Hx.
Qed.

Lemma getProfile_after_update_witness :
  getProfile (selected Sample.alice)
    (updateProfile (selected Sample.alice)
       (mkUpdateBody None (Some "Alicia") None None None) 9000 Sample.table).2
  = mkResponse 200 None "Profile retrieved successfully"
      (Some (selected (mkUser "id-alice" "alice" "Alicia" "Liddell" "a@x.com" 30
                              (Some "$2a$12$wonderland") local None None 100 9000)))
      None.
Proof.
  apply (getProfile_after_update (selected Sample.alice)
           (mkUpdateBody None (Some "Alicia") None None None) 9000 Sample.table _
           (updateProfile (selected Sample.alice)
              (mkUpdateBody None (Some "Alicia") None None None) 9000 Sample.table).1);
    reflexivity.
Defined.

(** ** Password change and account deletion *)

Lemma findUnique_email_in_place pre r post :
  (forall x, x ∈ pre -> email x <> email r) ->
  findUnique_email (email r) (pre ++ r :: post) = Some r.
Proof.
  intros Hpre. apply find_first; [|by apply by_email_true].
  intros x Hx. by apply by_email_false, Hpre.
Qed.

(** X12: a password change by a caller whose current password verifies is
    answered 200 and replaces, in the caller's record alone, the stored
    hash by the hash of the new password. From then on a local login with
    the new password succeeds when the library verifies a password
    against its own hash, and a login with the old one is refused when it
    does not verify against the new hash. *)
Theorem changePassword_then_login `{Bcrypt} (req_user : gmap string JsVal)
        (cur new : string) (now : Z) (pre post : list User) (me : User)
        (c : ascii) (h : string) :
  Store.wf (pre ++ me :: post) ->
  get req_user "id" = JStr (id me) ->
  password me = Some (String c h) ->
  bcrypt_compare cur (String c h) = true ->
  let me' :=
    mkUser (id me) (username me) (firstName me) (lastName me) (email me) (age me)
           (Some (bcrypt_hash new 12)) (provider me) (providerId me) (refreshToken me)
           (createdAt me) now in
  changePassword req_user cur new now (pre ++ me :: post)
  = (mkResponse 200 None "Password changed successfully" None None, pre ++ me' :: post)
  /\ (bcrypt_hash new 12 <> "" ->
      (bcrypt_compare new (bcrypt_hash new 12) = true ->
       localStrategy (email me) new (pre ++ me' :: post)
       = DoneUser (withoutPassword (full me')))
      /\ (bcrypt_compare cur (bcrypt_hash new 12) = false ->
          localStrategy (email me) cur (pre ++ me' :: post)
          = DoneFail "Invalid email or password")).
Proof.
  intros (Hids & Hemails & _) Hid Hpw Hcur me'. split.
  - unfold changePassword. rewrite Hid, (findUnique_id_in_place _ _ _ Hids), Hpw, Hcur.
    unfold update. rewrite (findUnique_id_in_place _ _ _ Hids). simpl.
    by rewrite (fmap_in_place _ _ _ _ Hids).
  - intros Hhash.
    assert (findUnique_email (email me) (pre ++ me' :: post) = Some me') as Hfind.
    { apply (findUnique_email_in_place pre me' post).
      intros x Hx. by apply (unique_before email pre me post). }
    unfold localStrategy. rewrite Hfind. simpl.
    destruct (bcrypt_hash new 12) as [|c' h'] eqn:Hh; [done|].
    split; by intros ->.
Qed.

Lemma changePassword_then_login_witness :
  @changePassword Sample.plain_bcrypt (selected Sample.alice) "wonderland" "looking-glass"
    9000 Sample.table
  = (mkResponse 200 None "Password changed successfully" None None,
     [mkUser "id-alice" "alice" "Alice" "Liddell" "a@x.com" 30
             (Some "$2a$12$looking-glass") local None None 100 9000;
      Sample.bob; Sample.carol]).
Proof.
  apply (proj1 (@changePassword_then_login Sample.plain_bcrypt (selected Sample.alice)
                  "wonderland" "looking-glass" 9000 [] [Sample.bob; Sample.carol]
                  Sample.alice "$"%char "2a$12$wonderland"
                  sample_table_wf eq_refl eq_refl eq_refl)).
Defined.

Lemma filter_out_id pre r post :
  NoDup (id <$> pre ++ r :: post) ->
  List.filter (fun x => negb (by_id (id r) x)) (pre ++ r :: post) = pre ++ post.
Proof.
  intros Hnd.
  assert (forall l, (forall x, x ∈ l -> id x <> id r) ->
                    List.filter (fun x => negb (by_id (id r) x)) l = l) as Hkeep.
  { induction l as [|a l IH]; intros Hl; [done|]. simpl.
    assert (by_id (id r) a = false) as ->.
    { apply bool_decide_eq_false, Hl, list_elem_of_here. }
    simpl. rewrite IH; [done|]. intros x Hx. by apply Hl, list_elem_of_further. }
  rewrite List.filter_app. simpl.
  assert (by_id (id r) r = true) as -> by (by apply by_id_true). simpl.
  rewrite !Hkeep; [done| |].
  - intros x Hx. by apply (unique_after id pre r post).
  - intros x Hx. by apply (unique_before id pre r post).
Qed.

(** X13: deleting an account removes the caller's record and no other,
    logs the session out, destroys it and clears its cookie. Afterwards a
    token that verifies to the deleted id is refused by the gate with the
    user-not-found reason, a local login with the record's email is
    refused as invalid credentials, and a second deletion is answered
    500 and changes nothing. *)
Theorem deleteAccount_then_refused `{Bcrypt} `{JwtLib} (env : Env) (now : Z)
        (req_user : gmap string JsVal) (pre post : list User) (me : User) :
  Store.wf (pre ++ me :: post) ->
  get req_user "id" = JStr (id me) ->
  deleteAccount req_user (pre ++ me :: post)
  = (mkResponse 200 None "Account deleted successfully" None None, pre ++ post,
     [ReqLogout; SessionDestroy; ClearCookie "connect.sid"])
  /\ (forall req c t d,
        bearer (authorization req) = Some (String c t) ->
        verifyToken env (now / 1000) (String c t) = Ok d ->
        userId d = JStr (id me) ->
        authenticate env now (pre ++ post) req
        = Reply (failure 401 "Unauthorized" "User not found"))
  /\ (forall pw, localStrategy (email me) pw (pre ++ post)
                 = DoneFail "Invalid email or password")
  /\ deleteAccount req_user (pre ++ post)
     = (failure 500 "Internal Server Error" "Failed to delete account", pre ++ post, []).
Proof.
  intros (Hids & Hemails & _) Hid.
  assert (findUnique_id (id me) (pre ++ post) = None) as Hgone.
  { apply findUnique_id_none. intros r [Hr | Hr]%elem_of_app.
    - by apply (unique_before id pre me post).
    - by apply (unique_after id pre me post). }
  split; [|split; [|split]].
  - unfold deleteAccount, deleteUser.
    rewrite Hid, (findUnique_id_in_place _ _ _ Hids). by rewrite (filter_out_id _ _ _ Hids).
  - intros req c t d Hb Hv Hd.
    unfold authenticate, authenticateJWT. rewrite Hb. simpl. rewrite Hv, Hd. simpl.
    by rewrite Hgone.
  - intros pw. unfold localStrategy.
    assert (findUnique_email (email me) (pre ++ post) = None) as ->; [|done].
    apply findUnique_email_none. intros r [Hr | Hr]%elem_of_app.
    + by apply (unique_before email pre me post).
    + by apply (unique_after email pre me post).
  - unfold deleteAccount, deleteUser. by rewrite Hid, Hgone.
Qed.

Lemma deleteAccount_then_refused_witness :
  deleteAccount (selected Sample.bob) Sample.table
  = (mkResponse 200 None "Account deleted successfully" None None,
     [Sample.alice; Sample.carol],
     [ReqLogout; SessionDestroy; ClearCookie "connect.sid"]).
Proof.
  apply (proj1 (@deleteAccount_then_refused Sample.plain_bcrypt Sample.plain_jwt Sample.env
                  2000000 (selected Sample.bob) [Sample.alice] [Sample.carol] Sample.bob
                  sample_table_wf eq_refl)).
Defined.

(** ** Sessions *)

(** X14: what the session stores of a user is its id, and reading it
    back gives the selected columns of the record with that id, for the
    object the local and OAuth strategies hand on as well as for the
    selected view; there is no password in it. Once no record has the id,
    reading back gives [null]. *)
Theorem deserialize_serialize (u : User) (rows : list User) :
  (findUnique_id (id u) rows = Some u ->
   deserializeUser (serializeUser (withoutPassword (full u))) rows = Ok (Some (selected u))
   /\ deserializeUser (serializeUser (selected u)) rows = Ok (Some (selected u))
   /\ selected u !! "password" = None)
  /\ ((forall r, r ∈ rows -> id r <> id u) ->
      deserializeUser (serializeUser (withoutPassword (full u))) rows = Ok None).
Proof.
  unfold deserializeUser, serializeUser. rewrite withoutPassword_id, selected_id. simpl.
  split.
  - intros ->. done.
  - intros Hgone. apply findUnique_id_none in Hgone. by rewrite Hgone.
Qed.

Lemma deserialize_serialize_witness :
  deserializeUser (serializeUser (withoutPassword (full Sample.bob))) Sample.table
  = Ok (Some (selected Sample.bob)).
Proof.
  apply (proj1 (deserialize_serialize Sample.bob Sample.table)). reflexivity.
Defined.

(** ** What OAuth resolution leaves alone *)

Lemma link_or_create_cases where_ p x rt data newId now rows :
  (exists e, link_or_create where_ p x rt data newId now rows = (DoneError e, rows))
  \/ (exists d,
        data = Ok d
        /\ link_or_create where_ p x rt data newId now rows
           = (DoneUser (withoutPassword (full (row_of newId now d))),
              rows ++ [row_of newId now d])
        /\ forall u, u ∈ rows -> email u <> c_email d)
  \/ (exists i w,
        findUnique_id i rows = Some w
        /\ link_or_create where_ p x rt data newId now rows
           = (DoneUser (withoutPassword (full (apply_update now (link_data p x rt) w))),
              (fun r => if by_id i r then apply_update now (link_data p x rt) r else r)
                <$> rows)).
Proof.
  unfold link_or_create. destruct (findFirst where_ rows) as [found|].
  - rewrite update_link. destruct (findUnique_id (id found) rows) as [w|] eqn:Hw.
    + destruct (pair_held _ _ _ rows); [left; by eexists|].
      right. right. by exists (id found), w.
    + left. by eexists.
  - destruct data as [d|e]; [|left; by eexists].
    unfold create.
    destruct (existsb (by_id newId) rows); [left; by eexists|].
    destruct (existsb (by_email (c_email d)) rows) eqn:He; [left; by eexists|].
    destruct (existsb (by_username (c_username d)) rows); [left; by eexists|].
    destruct (pair_held _ _ _ rows); [left; by eexists|].
    right. left. exists d. split; [done|]. split; [done|].
    rewrite existsb_false_iff in He. intros u Hu. apply by_email_false. by apply He.
Qed.

Lemma resolveOAuth_cases `{JsText} rt profile newId now rows :
  (exists e, resolveOAuth rt profile newId now rows = (DoneError e, rows))
  \/ (exists created,
        resolveOAuth rt profile newId now rows
        = (DoneUser (withoutPassword (full created)), rows ++ [created])
        /\ (forall u, u ∈ rows -> email u <> email created)
        /\ id created = newId /\ password created = None
        /\ provider created = profile_provider profile
        /\ providerId created = Some (profile_id profile)
        /\ refreshToken created = rt)
  \/ (exists i w,
        findUnique_id i rows = Some w
        /\ resolveOAuth rt profile newId now rows
           = (DoneUser (withoutPassword
                          (full (apply_update now
                                   (link_data (profile_provider profile)
                                              (profile_id profile) rt) w))),
              (fun r => if by_id i r
                        then apply_update now
                               (link_data (profile_provider profile)
                                          (profile_id profile) rt) r
                        else r) <$> rows)).
Proof.
  destruct profile as [g|h]; simpl.
  - destruct (g_emails g) as [|mail rest] eqn:Hm.
    { left. unfold googleStrategy. rewrite Hm. by eexists. }
    rewrite (googleStrategy_shape _ _ _ _ _ _ _ Hm).
    destruct (link_or_create_cases
                (where_or [by_email mail; by_provider google (g_id g)]) google (g_id g) rt
                match g_name g with
                | Some name =>
                    Ok {| c_username := local_part mail +:+ "_" +:+ Js.of_number now;
                          c_firstName := Js.or_str (givenName name) "Unknown";
                          c_lastName := Js.or_str (familyName name) "User";
                          c_email := mail; c_age := 18; c_password := None;
                          c_provider := google; c_providerId := Some (g_id g);
                          c_refreshToken := rt |}
                | None => Err (TypeError "profile.name.givenName")
                end newId now rows)
      as [He | [(d & Hd & Hc & Hfree) | Hl]]; [by left | | by right; right].
    right. left. eexists. split; [exact Hc|].
    destruct (g_name g); [|done]. injection Hd as <-. by repeat split.
  - rewrite githubStrategy_shape.
    destruct (link_or_create_cases (github_where h) github (h_id h) rt
                (Ok {| c_username := github_username h now;
                       c_firstName := github_firstName h;
                       c_lastName := github_lastName h;
                       c_email := github_email h; c_age := 18; c_password := None;
                       c_provider := github; c_providerId := Some (h_id h);
                       c_refreshToken := rt |}) newId now rows)
      as [He | [(d & Hd & Hc & Hfree) | Hl]]; [by left | | by right; right].
    right. left. eexists. split; [exact Hc|]. injection Hd as <-. by repeat split.
Qed.

(** X15: OAuth resolution, whatever it answers, keeps every record of the
    table at its place and never touches its id, username, email,
    password, names or age; the provider of a record changes only to the
    provider of the login, so a record that is not local never becomes
    local. At most one record is added. *)
Theorem resolveOAuth_frame `{JsText} (rt : option string) (profile : OAuthProfile) (newId : string)
        (now : Z) (rows : list User) :
  (forall k r, rows !! k = Some r ->
     exists r', (resolveOAuth rt profile newId now rows).2 !! k = Some r'
                /\ id r' = id r /\ username r' = username r /\ email r' = email r
                /\ password r' = password r
                /\ firstName r' = firstName r /\ lastName r' = lastName r /\ age r' = age r
                /\ (provider r' = provider r \/ provider r' = profile_provider profile)
                /\ (provider r' = local -> provider r = local))
  /\ (length rows <= length (resolveOAuth rt profile newId now rows).2 <= S (length rows))%nat.
Proof.
  assert (profile_provider profile <> local) as Hnl by (by destruct profile).
  destruct (resolveOAuth_cases rt profile newId now rows)
    as [[e ->] | [(created & -> & _) | (i & w & _ & ->)]]; simpl.
  - split; [|lia]. intros k r Hk. exists r. repeat split; auto.
  - split; [|rewrite length_app; simpl; lia].
    intros k r Hk. exists r. rewrite lookup_app_l by (by eapply lookup_lt_Some).
    repeat split; auto.
  - split; [|rewrite length_fmap; lia].
    intros k r Hk. rewrite list_lookup_fmap, Hk. simpl.
    destruct (by_id i r); eexists; (split; [done|]); repeat split; auto; simpl; try done.
Qed.

(** X16: a local login that succeeds before an OAuth resolution succeeds
    after it with the same credentials and for the same user id, whether
    the resolution created a record, linked one (the very one included)
    or failed. *)
Theorem local_login_survives_oauth `{Bcrypt} `{JsText} (rt : option string) (profile : OAuthProfile)
        (newId : string) (now : Z) (rows : list User) (mail pw : string)
        (o : gmap string JsVal) :
  localStrategy mail pw rows = DoneUser o ->
  exists o',
    localStrategy mail pw (resolveOAuth rt profile newId now rows).2 = DoneUser o'
    /\ get o' "id" = get o "id".
Proof.
  unfold localStrategy, findUnique_email.
  destruct (List.find (by_email mail) rows) as [u|] eqn:Hu; [|done].
  destruct (password u) as [[|c h]|] eqn:Hp; try done.
  destruct (bcrypt_compare pw (String c h)) eqn:Hc; [|done].
  intros [= <-]. rewrite withoutPassword_id.
  destruct (resolveOAuth_cases rt profile newId now rows)
    as [[e ->] | [(created & -> & _) | (i & w & _ & ->)]]; simpl.
  - rewrite Hu, Hp, Hc. eexists. split; [done|]. by rewrite withoutPassword_id.
  - apply find_some_split in Hu as (pre & post & -> & Hm & Hpre).
    rewrite <- app_assoc. simpl. rewrite (find_first _ pre u _ Hpre Hm), Hp, Hc.
    eexists. split; [done|]. by rewrite withoutPassword_id.
  - rewrite find_fmap_commute by (intros r; by destruct (by_id i r)).
    rewrite Hu. simpl.
    destruct (by_id i u); simpl; rewrite Hp, Hc; eexists; (split; [done|]);
      by rewrite withoutPassword_id.
Qed.

Lemma local_login_survives_oauth_witness :
  exists o',
    @localStrategy Sample.plain_bcrypt "a@x.com" "wonderland"
      (@resolveOAuth Sample.plain_text (Some "rt-9") (Google Sample.alice_on_google)
         "id-new" 9000 Sample.table).2
    = DoneUser o'
    /\ get o' "id" = JStr "id-alice".
Proof.
  apply (@local_login_survives_oauth Sample.plain_bcrypt Sample.plain_text (Some "rt-9")
           (Google Sample.alice_on_google) "id-new" 9000 Sample.table
           "a@x.com" "wonderland" (withoutPassword (full Sample.alice))).
  reflexivity.
Defined.

(** X17: the user an OAuth callback answers with is a record of the table
    as the callback leaves it; it carries the provider and the external
    id of the login, the answer shows the refresh token the provider
    sent, and the token of the answer names that record. *)
Theorem oauthCallback_answer `{JsText} `{JwtLib} (env : Env) (rt : option string)
        (profile : OAuthProfile) (logIn_ok : bool) (newId : string) (now : Z)
        (rows rows1 : list User) (res : Response) :
  oauthCallback env rt profile logIn_ok newId now rows = (Ok res, rows1) ->
  exists u t,
    u ∈ rows1
    /\ status res = 200
    /\ user res = Some (withoutPassword (full u))
    /\ provider u = profile_provider profile
    /\ providerId u = Some (profile_id profile)
    /\ (forall r, rt = Some r -> get (withoutPassword (full u)) "refreshToken" = JStr r)
    /\ token res = Some t /\ userId (claims t) = JStr (id u).
Proof.
  unfold oauthCallback.
  destruct (resolveOAuth_cases rt profile newId now rows)
    as [[e ->] | [(created & -> & _ & _ & _ & Hp & Hx & Hr) | (i & w & Hw & ->)]];
    [done| |].
  - destruct logIn_ok; [|done]. rewrite withoutPassword_id.
    destruct (generateToken env (now / 1000) (JStr (id created))) as [t|] eqn:Ht; [|done].
    intros [= <- <-]. exists created, t.
    split; [apply elem_of_app; right; apply list_elem_of_here|].
    repeat split; try done.
    + intros r ->. unfold get, withoutPassword, full. rewrite Hr. reflexivity.
    + by apply generateToken_userId in Ht.
  - destruct logIn_ok; [|done]. rewrite withoutPassword_id.
    destruct (generateToken env (now / 1000) _) as [t|] eqn:Ht; [|done].
    intros [= <- <-]. eexists _, t. split.
    { apply find_some_split in Hw as (pre & post & -> & Hi & _).
      apply (list_elem_of_fmap_2' _ _ w); [apply elem_of_app; right; apply list_elem_of_here|].
      by rewrite Hi. }
    repeat split; try done.
    + by intros r ->.
    + by apply generateToken_userId in Ht.
Qed.

Lemma oauthCallback_answer_witness :
  exists u t,
    u ∈ (@oauthCallback Sample.plain_text Sample.plain_jwt Sample.env (Some "rt-9")
           (Google Sample.alice_on_google) true "id-new" 9000
           Sample.table).2
    /\ provider u = google /\ providerId u = Some "g-500"
    /\ get (withoutPassword (full u)) "refreshToken" = JStr "rt-9"
    /\ userId (claims t) = JStr (id u).
Proof.
  destruct (@oauthCallback_answer Sample.plain_text Sample.plain_jwt Sample.env (Some "rt-9")
              (Google Sample.alice_on_google) true "id-new" 9000
              Sample.table
              (@oauthCallback Sample.plain_text Sample.plain_jwt Sample.env (Some "rt-9")
                 (Google Sample.alice_on_google) true "id-new" 9000
                 Sample.table).2
              (mkResponse 200 None "Google OAuth login successful"
                 (Some (withoutPassword
                          (full (mkUser "id-alice" "alice" "Alice" "Liddell" "a@x.com" 30
                                        (Some "$2a$12$wonderland") google (Some "g-500")
                                        (Some "rt-9") 100 9000))))
                 (Some (mkJwt (mkClaims (JStr "id-alice") 9 604809) "s3cret")))
              eq_refl)
    as (u & t & Hin & _ & _ & Hp & Hx & Hrt & _ & Hid).
  exists u, t. split; [exact Hin|]. split; [exact Hp|]. split; [exact Hx|].
  split; [exact (Hrt "rt-9" eq_refl) | exact Hid].
Defined.

(** X18: an account that an OAuth resolution has just created has no
    password, and a local login with its email is told to use OAuth,
    whatever password is tried. *)
Theorem oauth_account_no_local_login `{Bcrypt} `{JsText} (rt : option string) (profile : OAuthProfile)
        (newId : string) (now : Z) (rows rows1 : list User) (o : gmap string JsVal) :
  resolveOAuth rt profile newId now rows = (DoneUser o, rows1) ->
  length rows1 = S (length rows) ->
  exists mail,
    get o "email" = JStr mail
    /\ forall pw, localStrategy mail pw rows1 = DoneFail "Please use OAuth to login".
Proof.
  destruct (resolveOAuth_cases rt profile newId now rows)
    as [[e ->] | [(created & -> & Hfree & _ & Hp & _) | (i & w & _ & ->)]]; [done| |].
  - intros [= <- <-] _. exists (email created). split; [reflexivity|].
    intros pw. unfold localStrategy.
    rewrite (findUnique_email_in_place rows created [] Hfree). by rewrite Hp.
  - intros [= <- <-]. rewrite length_fmap. lia.
Qed.

Lemma oauth_account_no_local_login_witness :
  exists mail,
    get (withoutPassword
           (full (mkUser "id-octo" "octo" "octo" "User" "octo@github.local" 18 None
                         github (Some "h-6") None 9000 9000))) "email" = JStr mail
    /\ forall pw,
        @localStrategy Sample.plain_bcrypt mail pw
          (@resolveOAuth Sample.plain_text None (GitHub Sample.octo_new) "id-octo" 9000
             Sample.table).2
        = DoneFail "Please use OAuth to login".
Proof.
  apply (@oauth_account_no_local_login Sample.plain_bcrypt Sample.plain_text None
           (GitHub Sample.octo_new)
           "id-octo" 9000 Sample.table); reflexivity.
Defined.

(** ** Names of a new GitHub account *)

Lemma split_not_nil sep s : Js.split sep s <> [].
Proof.
  destruct s as [|c s]; simpl; [done|].
  destruct (Ascii.eqb c sep); [done|]. by destruct (Js.split sep s).
Qed.

Lemma join_split (c : ascii) (s : string) : Js.join (String c "") (Js.split c s) = s.
Proof.
  induction s as [|x s IH]; [done|]. simpl.
  destruct (Ascii.eqb x c) eqn:Hx.
  - apply Ascii.eqb_eq in Hx as ->.
    pose proof (split_not_nil c s) as Hne.
    destruct (Js.split c s) as [|seg segs]; [done|].
    change (Js.join (String c "") ("" :: seg :: segs))
      with (String c (Js.join (String c "") (seg :: segs))).
    by rewrite IH.
  - pose proof (split_not_nil c s) as Hne.
    destruct (Js.split c s) as [|seg segs]; [done|].
    destruct segs as [|seg' segs].
    + simpl in *. by rewrite IH.
    + rewrite <- IH.
      change (Js.join (String c "") (String x seg :: seg' :: segs))
        with (String x (seg +:+ String c "" +:+ Js.join (String c "") (seg' :: segs))).
      done.
Qed.

(** X19: the GitHub strategy cuts the display name at its first space:
    what stands before it, when not empty, is the first name and
    everything after it, further spaces included, is the last name; a
    display name of one word is the first name and the last name is
    [User]. *)
Theorem github_names_from_display (h : GitHubProfile) (a b : string) :
  has_space a = false -> a <> "" ->
  (h_displayName h = Some (a +:+ " " +:+ b) -> b <> "" ->
   github_firstName h = a /\ github_lastName h = b)
  /\ (h_displayName h = Some a ->
      github_firstName h = a /\ github_lastName h = "User").
Proof.
  intros Ha Hne. split.
  - intros Hd Hb. unfold github_firstName, github_lastName. rewrite Hd. simpl.
    rewrite (split_at_first_space _ _ Ha). simpl.
    change (Js.join " " (Js.split " " b)) with (Js.join (String " " "") (Js.split " "%char b)).
    rewrite join_split. split.
    + unfold Js.or_opt. by destruct a.
    + by destruct b.
  - intros Hd. unfold github_firstName, github_lastName. rewrite Hd. simpl.
    rewrite (split_spaceless _ Ha). simpl. split; [|done].
    unfold Js.or_opt. by destruct a.
Qed.

Lemma github_names_from_display_witness :
  github_firstName (mkGitHub "h-9" (Some "grace") (Some "Grace Brewster  Hopper") [])
  = "Grace"
  /\ github_lastName (mkGitHub "h-9" (Some "grace") (Some "Grace Brewster  Hopper") [])
     = "Brewster  Hopper".
Proof.
  apply (proj1 (github_names_from_display
                  (mkGitHub "h-9" (Some "grace") (Some "Grace Brewster  Hopper") [])
                  "Grace" "Brewster  Hopper" eq_refl ltac:(discriminate)));
    [reflexivity | discriminate].
Defined.







